(** * catalyst.data.reader: field readers and their composition

    A shallow embedding of [catalyst/data/reader.py].  The module turns one
    annotation record (a Python dict) into a dict of named values:

    - [BaseReader], [ImageReader], [ScalarReader], [TextReader]: one field
      each, from [row_key] of the record to [dict_key] of the output;
    - [ReaderCompose]: runs readers, then mixins, merging their dicts.

    Python objects are modelled by the fragment the readers touch: [None],
    [int], [float] (IEEE binary64), [numpy.float32] scalars, [str]; numpy
    float32 vectors; decoded image buffers.  [bool], numpy integer scalars
    and containers as field values are outside the fragment.  Dicts with
    string keys are [gmap string _].  A raised exception is the [Raise]
    branch of [result].  Every [__call__] runs in a state-and-error monad
    over the two objects it can reach, the reader itself and the record.
    The callables handed to a reader ([dtype], [encode_fn], the mixins)
    and the image decoder are functions of the values they are called on. *)

From Stdlib Require Import ZArith Lia Ascii.
From Stdlib Require Import Floats.SpecFloat.
From stdpp Require Import base option list strings gmap.

(** ** Exceptions and results *)

(** The exception classes that the readers and the builtins they call can
    raise.  [CollaboratorError] stands for whatever an injected callable
    ([read_image], an encode function, a mixin) raises on its own. *)
Inductive exn : Type :=
| KeyError (key : string)
| TypeError
| ValueError
| IndexError
| OverflowError
| CollaboratorError (msg : string).

Inductive result (A : Type) : Type :=
| Ok (a : A)
| Raise (e : exn).
Arguments Ok {A} a.
Arguments Raise {A} e.

#[global] Instance result_ret : MRet result := @Ok.
#[global] Instance result_bind : MBind result := λ A B f r,
  match r with
  | Ok a => f a
  | Raise e => Raise e
  end.

#[global] Instance result_fmap : FMap result := λ A B f r,
  a ← r; Ok (f a).

(** ** Floating-point data *)

Module Float.
Local Open Scope Z_scope.

(** Python's [float] is IEEE binary64, [numpy.float32] is binary32. *)
Definition prec64 : Z := 53.
Definition emax64 : Z := 1024.
Definition prec32 : Z := 24.
Definition emax32 : Z := 128.

Definition zero : spec_float := S754_zero false.
Definition nan : spec_float := S754_nan.

(** Nearest binary64 to an integer (ties to even). *)
Definition b64_of_Z (z : Z) : spec_float :=
  binary_normalize prec64 emax64 z 0 false.

(** The C cast [(float) d]: nearest binary32, infinity on overflow. *)
Definition b32_of_b64 (f : spec_float) : spec_float :=
  match f with
  | S754_finite s m e => binary_round prec32 emax32 s m e
  | _ => f
  end.

(** The binary64 value of a binary32 one: the same number, exactly. *)
Definition b64_of_b32 (f : spec_float) : spec_float :=
  match f with
  | S754_finite s m e => binary_round prec64 emax64 s m e
  | _ => f
  end.

Definition one64 : spec_float := b64_of_Z 1.
Definition two64 : spec_float := b64_of_Z 2.
Definition one32 : spec_float := b32_of_b64 one64.

Definition is_finite (f : spec_float) : bool :=
  match f with
  | S754_zero _ | S754_finite _ _ _ => true
  | _ => false
  end.

(** Truncation toward zero of a finite float (what [int(f)] returns). *)
Definition trunc (f : spec_float) : Z :=
  match f with
  | S754_finite s m e =>
      cond_Zopp s (if 0 <=? e then Z.pos m * 2 ^ e else Z.pos m / 2 ^ (- e))
  | _ => 0
  end.

(** [f >= n] for an integer [n], compared exactly as Python does for
    [float] against [int]; false on a NaN. *)
Definition geb_Z (f : spec_float) (n : Z) : bool :=
  match f with
  | S754_nan => false
  | S754_infinity s => negb s
  | S754_zero _ => n <=? 0
  | S754_finite s m e =>
      if 0 <=? e then n <=? cond_Zopp s (Z.pos m * 2 ^ e)
      else n * 2 ^ (- e) <=? cond_Zopp s (Z.pos m)
  end.

(** [f < n] for an integer [n], exactly; false on a NaN. *)
Definition ltb_Z (f : spec_float) (n : Z) : bool :=
  match f with
  | S754_nan => false
  | S754_infinity s => s
  | S754_zero _ => 0 <? n
  | S754_finite s m e =>
      if 0 <=? e then cond_Zopp s (Z.pos m * 2 ^ e) <? n
      else cond_Zopp s (Z.pos m) <? n * 2 ^ (- e)
  end.

(** [f == n] for an integer [n], exactly. *)
Definition eqb_Z (f : spec_float) (n : Z) : bool :=
  match f with
  | S754_nan | S754_infinity _ => false
  | S754_zero _ => n =? 0
  | S754_finite s m e =>
      if 0 <=? e then n =? cond_Zopp s (Z.pos m * 2 ^ e)
      else n * 2 ^ (- e) =? cond_Zopp s (Z.pos m)
  end.
End Float.

(** ** Values *)

(** What a record holds under a key and what a numeric type returns. *)
Inductive scalar : Type :=
| SNone                          (* None *)
| SInt (z : Z)                   (* int, unbounded *)
| SFloat (f : spec_float)        (* float *)
| SFloat32 (f : spec_float)      (* numpy.float32 scalar *)
| SStr (s : string).             (* str *)

(** A one-dimensional numpy array of dtype float32. *)
Abbreviation ndarray := (list spec_float).

(** A decoded image buffer: its shape and its 8-bit samples. *)
Record image : Type := Buffer { im_shape : list nat; im_data : list N }.

(** What an output dict holds under a key. *)
Inductive value : Type :=
| VScalar (s : scalar)
| VArray (a : ndarray)
| VImage (img : image).

Abbreviation record := (gmap string scalar).
Abbreviation mapping := (gmap string value).

(** ** The host the readers run on *)

(** What the module imports or inherits from the interpreter and is not
    defined in it: the image decoder [catalyst.data.functional.read_image]
    (image name, [datapath], [grayscale]), the builtin [str] on the values
    of a record, and the grammars by which [int(s)] and [float(s)] read a
    number out of text ([None] when the text is rejected). *)
Class Runtime : Type := {
  read_image : string → option string → bool → result image;
  str : scalar → string;
  parse_int : string → option Z;
  parse_float : string → option spec_float
}.

(** ** The Python and numpy operations the readers use *)

Module Py.
Local Open Scope Z_scope.

(** [x is not None] *)
Definition is_not_none (x : scalar) : bool :=
  match x with SNone => false | _ => true end.

(** [x >= n] followed by the truth test of [and] / [if].  Ordering a
    [str] or [None] against an [int] raises [TypeError].  For a numpy
    scalar numpy converts the [int] operand first, which is exact for
    the [0] the reader compares with. *)
Definition ge (x : scalar) (n : Z) : result bool :=
  match x with
  | SNone => Raise TypeError
  | SInt z => Ok (n <=? z)
  | SFloat f | SFloat32 f => Ok (Float.geb_Z f n)
  | SStr _ => Raise TypeError
  end.

(** [x < n], under the same rules. *)
Definition lt (x : scalar) (n : Z) : result bool :=
  match x with
  | SNone => Raise TypeError
  | SInt z => Ok (z <? n)
  | SFloat f | SFloat32 f => Ok (Float.ltb_Z f n)
  | SStr _ => Raise TypeError
  end.

(** [x == n] for an integer literal [n]. *)
Definition eq_int (x : scalar) (n : Z) : bool :=
  match x with
  | SInt z => z =? n
  | SFloat f | SFloat32 f => Float.eqb_Z f n
  | _ => false
  end.

(** [row.get(key, default)] *)
Definition dict_get (row : record) (key : string) (default : scalar) : scalar :=
  match row !! key with
  | Some x => x
  | None => default
  end.

(** [row[key]] *)
Definition dict_getitem (row : record) (key : string) : result scalar :=
  match row !! key with
  | Some x => Ok x
  | None => Raise (KeyError key)
  end.

(** [{**a, **b}]: the entries of [a], overwritten by those of [b]. *)
Definition dict_merge (a b : mapping) : mapping := b ∪ a.

(** [{**a, **b}] where [b] is the return value of a call: unpacking
    [None] raises [TypeError]. *)
Definition dict_merge_ret (a : mapping) (b : option mapping) : result mapping :=
  match b with
  | Some d => Ok (dict_merge a d)
  | None => Raise TypeError
  end.

(** [np.zeros(n, dtype=np.float32)] *)
Definition np_zeros (n : Z) : result ndarray :=
  if n <? 0 then Raise ValueError
  else Ok (replicate (Z.to_nat n) Float.zero).

(** [a[idx] = x] on a one-dimensional array.  An [int] indexes one cell,
    counting from the end when negative.  Out of range it raises
    [IndexError], but for an [int] from 2^63 up to 2^64 - 1: numpy takes
    it as an unsigned 64-bit index, which does not fit its signed index
    type, and raises [OverflowError].  [None] is [numpy.newaxis] and
    assigns every cell; a [float], a numpy floating scalar or a [str] is
    not a valid index and raises [IndexError]. *)
Definition ndarray_setitem (a : ndarray) (idx : scalar) (x : spec_float)
  : result ndarray :=
  match idx with
  | SInt k =>
      let len := Z.of_nat (length a) in
      if (0 <=? k) && (k <? len) then Ok (<[Z.to_nat k := x]> a)
      else if (- len <=? k) && (k <? 0) then Ok (<[Z.to_nat (len + k) := x]> a)
      else if (2 ^ 63 <=? k) && (k <? 2 ^ 64) then Raise OverflowError
      else Raise IndexError
  | SNone => Ok (replicate (length a) x)
  | SFloat _ | SFloat32 _ | SStr _ => Raise IndexError
  end.

(** [str.upper] on ASCII text; other bytes are kept. *)
Definition upper_ascii (c : ascii) : ascii :=
  let n := nat_of_ascii c in
  if ((97 <=? n) && (n <=? 122))%nat then ascii_of_nat (n - 32) else c.

Fixpoint upper (s : string) : string :=
  match s with
  | EmptyString => EmptyString
  | String c s' => String (upper_ascii c) (upper s')
  end.

(** [str.upper] as an unbound method: its receiver must be a [str]. *)
Definition str_upper (x : scalar) : result value :=
  match x with
  | SStr s => Ok (VScalar (SStr (upper s)))
  | _ => Raise TypeError
  end.

(** The numeric types used as [dtype]. *)
Section Dtypes.
Context `{Runtime}.

(** [int(x)] *)
Definition int (x : scalar) : result scalar :=
  match x with
  | SNone => Raise TypeError
  | SInt z => Ok (SInt z)
  | SFloat f | SFloat32 f =>
      match f with
      | S754_nan => Raise ValueError
      | S754_infinity _ => Raise OverflowError
      | _ => Ok (SInt (Float.trunc f))
      end
  | SStr s =>
      match parse_int s with
      | Some z => Ok (SInt z)
      | None => Raise ValueError
      end
  end.

(** The binary64 value of [x], as [float(x)] computes it. *)
Definition as_double (x : scalar) : result spec_float :=
  match x with
  | SNone => Raise TypeError
  | SInt z =>
      let f := Float.b64_of_Z z in
      if Float.is_finite f then Ok f else Raise OverflowError
  | SFloat f => Ok f
  | SFloat32 f => Ok (Float.b64_of_b32 f)
  | SStr s =>
      match parse_float s with
      | Some f => Ok f
      | None => Raise ValueError
      end
  end.

(** [float(x)] *)
Definition float (x : scalar) : result scalar :=
  f ← as_double x; Ok (SFloat f).

(** [np.float32(x)]: numpy takes [None] to NaN, and anything else
    through its binary64 value, cast down to binary32. *)
Definition np_float32 (x : scalar) : result scalar :=
  match x with
  | SNone => Ok (SFloat32 Float.nan)
  | _ => f ← as_double x; Ok (SFloat32 (Float.b32_of_b64 f))
  end.
End Dtypes.
End Py.

(** ** Calls as state transformers *)

(** A [__call__] reaches two objects: the reader it is a method of and
    the record it is given.  It may raise at any point, and the objects
    stay as they were at that point. *)
Record frame (S : Type) : Type := Frame { f_self : S; f_row : record }.
Arguments Frame {S} f_self f_row.
Arguments f_self {S} _.
Arguments f_row {S} _.

Definition M (S A : Type) : Type := frame S → frame S * result A.

#[global] Instance M_ret {S} : MRet (M S) := λ A a σ, (σ, Ok a).
#[global] Instance M_bind {S} : MBind (M S) := λ A B f m σ,
  match m σ with
  | (σ', Ok a) => f a σ'
  | (σ', Raise e) => (σ', Raise e)
  end.

#[global] Instance M_fmap {S} : FMap (M S) := λ A B f m,
  a ← m; mret (f a).

Module Obj.
(** [self.f] *)
Definition attr {S A} (f : S → A) : M S A := λ σ, (σ, Ok (f (f_self σ))).

(** [row.get(key, default)] *)
Definition row_get {S} (key : string) (default : scalar) : M S scalar :=
  λ σ, (σ, Ok (Py.dict_get (f_row σ) key default)).

(** [row[key]] *)
Definition row_getitem {S} (key : string) : M S scalar :=
  λ σ, (σ, Py.dict_getitem (f_row σ) key).

(** The outcome of calling a callable that is given values only. *)
Definition lift {S A} (r : result A) : M S A := λ σ, (σ, r).

(** The two stores of the object model: an assignment to attributes of
    [self], which leaves it as [s], and [row[key] = x].  No [__call__] of
    the module performs either. *)
Definition set_self {S} (s : S) : M S unit :=
  λ σ, (Frame s (f_row σ), Ok tt).
Definition row_setitem {S} (key : string) (x : scalar) : M S unit :=
  λ σ, (Frame (f_self σ) (<[key := x]> (f_row σ)), Ok tt).

(** Calling [m] on the objects [self] and [row]: the objects afterwards,
    and what the call returned or raised. *)
Definition run {S A} (m : M S A) (self : S) (row : record) : frame S * result A :=
  m (Frame self row).
Definition outcome {S A} (m : M S A) (self : S) (row : record) : result A :=
  (run m self row).2.
End Obj.
Import Obj.

(** ** The readers *)

Module BaseReader.
Record t : Type := init { row_key : string; dict_key : string }.

(** The body is [pass]: the call returns [None]. *)
Definition call : M t (option mapping) := mret None.
End BaseReader.

Module ImageReader.
Record t : Type := mk {
  row_key : string;
  dict_key : string;
  datapath : option string;
  grayscale : bool
}.

(** [__init__(row_key, dict_key, datapath=None, grayscale=False)] *)
Definition init (row_key dict_key : string) (datapath : option string)
    (grayscale : option bool) : t :=
  mk row_key dict_key datapath (default false grayscale).

Definition call `{Runtime} : M t mapping :=
  key ← attr row_key;
  x ← row_getitem key;
  let image_name := str x in
  dp ← attr datapath;
  gs ← attr grayscale;
  img ← lift (read_image image_name dp gs);
  dk ← attr dict_key;
  let result : mapping := {[ dk := VImage img ]} in
  mret result.
End ImageReader.

Module ScalarReader.
Record t : Type := mk {
  row_key : string;
  dict_key : string;
  dtype : scalar → result scalar;
  default_value : scalar;
  one_hot_classes : option Z
}.

(** [__init__(row_key, dict_key, dtype=np.float32, default_value=None,
    one_hot_classes=None)]; [None] for [dtype] is the omitted argument. *)
Definition init `{Runtime} (row_key dict_key : string)
    (dtype : option (scalar → result scalar)) (default_value : scalar)
    (one_hot_classes : option Z) : t :=
  mk row_key dict_key (default Py.np_float32 dtype) default_value one_hot_classes.

Definition call : M t mapping :=
  key ← attr row_key;
  dv ← attr default_value;
  x ← row_get key dv;
  dt ← attr dtype;
  scalar ← lift (dt x);
  n ← attr one_hot_classes;
  scalar ← match n with
           | Some n =>
               if Py.is_not_none scalar then
                 nonneg ← lift (Py.ge scalar 0);
                 if (nonneg : bool) then
                   one_hot ← lift (Py.np_zeros n);
                   one_hot ← lift (Py.ndarray_setitem one_hot scalar Float.one32);
                   mret (VArray one_hot)
                 else mret (VScalar scalar)
               else mret (VScalar scalar)
           | None => mret (VScalar scalar)
           end;
  dk ← attr dict_key;
  let result : mapping := {[ dk := scalar ]} in
  mret result.
End ScalarReader.

Module TextReader.
Record t : Type := mk {
  row_key : string;
  dict_key : string;
  encode_fn : scalar → result value
}.

(** The default [encode_fn], [lambda x: x]. *)
Definition identity (x : scalar) : result value := Ok (VScalar x).

(** [__init__(row_key, dict_key, encode_fn=lambda x: x)] *)
Definition init (row_key dict_key : string)
    (encode_fn : option (scalar → result value)) : t :=
  mk row_key dict_key (default identity encode_fn).

Definition call : M t mapping :=
  key ← attr row_key;
  text ← row_getitem key;
  enc ← attr encode_fn;
  text ← lift (enc text);
  dk ← attr dict_key;
  let result : mapping := {[ dk := text ]} in
  mret result.
End TextReader.

(** ** Readers as callables *)

(** An element of [ReaderCompose.readers]: an instance of one of the four
    classes.  A call dispatches on the class of the instance. *)
Inductive reader : Type :=
| Base (r : BaseReader.t)
| Image (r : ImageReader.t)
| Scalar (r : ScalarReader.t)
| Text (r : TextReader.t).

Module Reader.
(** Runs the method [m] of class [S] on an instance wrapped by [wrap]. *)
Definition method {S A} (wrap : S → reader) (m : M S A) (self : S)
    (row : record) : frame reader * result A :=
  let '(σ, out) := run m self row in (Frame (wrap (f_self σ)) (f_row σ), out).

(** [fn(row)]: the objects afterwards and the returned object, [None]
    or a dict. *)
Definition call `{Runtime} (fn : reader) (row : record)
  : frame reader * result (option mapping) :=
  match fn with
  | Base r => method Base BaseReader.call r row
  | Image r => method Image (Some <$> ImageReader.call) r row
  | Scalar r => method Scalar (Some <$> ScalarReader.call) r row
  | Text r => method Text (Some <$> TextReader.call) r row
  end.

Definition outcome `{Runtime} (fn : reader) (row : record) : result (option mapping) :=
  (call fn row).2.
End Reader.

(** ** The pipeline *)

(** A mixin is a function of the mapping merged so far, taken as a set of
    entries: what a mixin would make of the order in which the keys were
    inserted is outside the model. *)
Definition mixin : Type := mapping → result mapping.

Module ReaderCompose.
Record t : Type := mk { readers : list reader; mixins : list mixin }.

(** [__init__(readers, mixins=None)], with [self.mixins = mixins or []] *)
Definition init (readers : list reader) (mixins : option (list mixin)) : t :=
  mk readers (default [] mixins).

(** [fn(row)] from inside the pipeline: the reader works on the record
    the pipeline was given and hands it back as it left it.  The reader
    object after the call is not written back into [readers]; by
    [Reader_call_frame] below it is the object before the call. *)
Definition invoke `{Runtime} (fn : reader) : M t (option mapping) :=
  λ σ, let '(σ', out) := Reader.call fn (f_row σ) in
       (Frame (f_self σ) (f_row σ'), out).

(** [for fn in self.readers: result = {**result, **fn(row)}] *)
Fixpoint run_readers `{Runtime} (fns : list reader) (result : mapping)
  : M t mapping :=
  match fns with
  | [] => mret result
  | fn :: fns =>
      out ← invoke fn;
      result ← lift (Py.dict_merge_ret result out);
      run_readers fns result
  end.

(** [for fn in self.mixins: result = {**result, **fn(result)}] *)
Fixpoint run_mixins (fns : list mixin) (result : mapping) : M t mapping :=
  match fns with
  | [] => mret result
  | fn :: fns =>
      out ← lift (fn result);
      let result := Py.dict_merge result out in
      run_mixins fns result
  end.

Definition call `{Runtime} : M t mapping :=
  let result : mapping := ∅ in
  fns ← attr readers;
  result ← run_readers fns result;
  fns ← attr mixins;
  result ← run_mixins fns result;
  mret result.
End ReaderCompose.

(** ** Vocabulary of the statements *)

(** A computation preserves its frame when the reader and the record are,
    after it, what they were before it, whether it returned or raised. *)
Definition preserves {S A} (m : M S A) : Prop := ∀ σ, (m σ).1 = σ.

(** One-hot encoding as the specification words it: a vector of [n]
    zeros in floating point, with 1.0 at index [k]. *)
Definition one_hot_vector (n k : nat) : ndarray :=
  (λ i, if decide (i = k) then Float.one32 else Float.zero) <$> seq 0 n.

(** Last write wins: among dicts merged in list order, the value of a
    key is the one of the last dict that has the key. *)
Fixpoint last_write (key : string) (outs : list mapping) : option value :=
  match outs with
  | [] => None
  | out :: outs =>
      match last_write key outs with
      | Some v => Some v
      | None => out !! key
      end
  end.

(** The dicts the mixins return when each one is applied to the mapping
    merged so far, starting from [result]. *)
Inductive mixin_outs : list mixin → mapping → list mapping → Prop :=
| mixin_outs_nil result : mixin_outs [] result []
| mixin_outs_cons fn fns result out outs :
    fn result = Ok out →
    mixin_outs fns (Py.dict_merge result out) outs →
    mixin_outs (fn :: fns) result (out :: outs).

(** The reader [fn] returned the dict [out] on [row]. *)
Definition returns `{Runtime} (row : record) (fn : reader) (out : mapping) : Prop :=
  Reader.outcome fn row = Ok (Some out).

(** Readers, pipelines and records to run them on. *)
Module Sample.
(** A host for the samples below: it has no image file to read, it
    reads no number out of text, and [str] is right on text, the only
    values the samples hand to it. *)
Definition host : Runtime := {|
  read_image := λ _ _ _, Raise (CollaboratorError "No such file or directory");
  str := λ x, match x with SStr s => s | _ => "None" end;
  parse_int := λ _, None;
  parse_float := λ _, None
|}.

Section Inputs.
Context `{Runtime}.
Local Open Scope Z_scope.

(** [ScalarReader("x", "y", dtype=int, one_hot_classes=5)] *)
Definition one_hot_int : ScalarReader.t :=
  ScalarReader.init "x" "y" (Some Py.int) SNone (Some 5).
(** [ScalarReader("x", "y", dtype=float, one_hot_classes=5)] *)
Definition one_hot_float : ScalarReader.t :=
  ScalarReader.init "x" "y" (Some Py.float) SNone (Some 5).
(** [ScalarReader("x", "y", one_hot_classes=5)] *)
Definition one_hot_float32 : ScalarReader.t :=
  ScalarReader.init "x" "y" None SNone (Some 5).
(** [ScalarReader("x", "y", dtype=float, default_value=2.0)] *)
Definition float_default_2 : ScalarReader.t :=
  ScalarReader.init "x" "y" (Some Py.float) (SFloat Float.two64) None.
(** [ScalarReader("x", "y", default_value=2.0)] *)
Definition float32_default_2 : ScalarReader.t :=
  ScalarReader.init "x" "y" None (SFloat Float.two64) None.
(** [ScalarReader("x", "y", dtype=int, default_value=2)] *)
Definition int_default_2 : ScalarReader.t :=
  ScalarReader.init "x" "y" (Some Py.int) (SInt 2) None.
(** [ScalarReader("x", "y", dtype=int)] *)
Definition int_plain : ScalarReader.t :=
  ScalarReader.init "x" "y" (Some Py.int) SNone None.
(** [ScalarReader("x", "y")] *)
Definition float32_plain : ScalarReader.t :=
  ScalarReader.init "x" "y" None SNone None.

(** [TextReader("t", "enc", encode_fn=str.upper)] *)
Definition upper_text : TextReader.t :=
  TextReader.init "t" "enc" (Some Py.str_upper).

(** [ReaderCompose([ScalarReader("a", "out"), ScalarReader("b", "out")])] *)
Definition same_key : ReaderCompose.t :=
  ReaderCompose.init
    [Scalar (ScalarReader.init "a" "out" None SNone None);
     Scalar (ScalarReader.init "b" "out" None SNone None)]
    None.

(** [lambda d: {"n": 2}], a mixin that looks at nothing. *)
Definition constant_mixin : mixin :=
  λ _, Ok {[ "n" := VScalar (SInt 2) ]}.

(** [ReaderCompose([ScalarReader("a", "out"), ImageReader("path", "image"),
    ScalarReader("b", "out")], mixins=[lambda d: {"n": 2}])] *)
Definition with_image : ReaderCompose.t :=
  ReaderCompose.init
    [Scalar (ScalarReader.init "a" "out" None SNone None);
     Image (ImageReader.init "path" "image" None None);
     Scalar (ScalarReader.init "b" "out" None SNone None)]
    (Some [constant_mixin]).

Definition row_empty : record := ∅.
Definition row_x (x : scalar) : record := {[ "x" := x ]}.
Definition row_t : record := {[ "t" := SStr "hello" ]}.
Definition row_ab : record := {[ "a" := SInt 1; "b" := SInt 2 ]}.
Definition row_path : record :=
  {[ "a" := SInt 1; "b" := SInt 2; "path" := SStr "missing.png" ]}.

Definition three64 : spec_float := Float.b64_of_Z 3.
Definition two32 : spec_float := Float.b32_of_b64 Float.two64.
Definition minus_one32 : spec_float := Float.b32_of_b64 (Float.b64_of_Z (-1)).
End Inputs.
End Sample.

(** The field a reader reads and the field it writes. *)
Definition reader_row_key (fn : reader) : string :=
  match fn with
  | Base r => BaseReader.row_key r
  | Image r => ImageReader.row_key r
  | Scalar r => ScalarReader.row_key r
  | Text r => TextReader.row_key r
  end.

Definition reader_dict_key (fn : reader) : string :=
  match fn with
  | Base r => BaseReader.dict_key r
  | Image r => ImageReader.dict_key r
  | Scalar r => ScalarReader.dict_key r
  | Text r => TextReader.dict_key r
  end.

(** The dict [fn(row)] evaluates to, empty when the call returns none. *)
Definition returned `{Runtime} (row : record) (fn : reader) : mapping :=
  match Reader.outcome fn row with
  | Ok (Some out) => out
  | _ => ∅
  end.

(** More readers, pipelines and records. *)
Module Inputs.
(** A host with one image file, "cat.png", of one pixel. *)
Definition album : Runtime := {|
  read_image := λ name _ grayscale,
    if decide (name = "cat.png")
    then Ok (if grayscale then Buffer [1; 1] [7%N]
             else Buffer [1; 1; 3] [7%N; 7%N; 7%N])
    else Raise (CollaboratorError "No such file or directory");
  str := λ x, match x with SStr s => s | _ => "None" end;
  parse_int := λ _, None;
  parse_float := λ _, None
|}.

Section Inputs.
Context `{Runtime}.
Local Open Scope Z_scope.

(** [ImageReader("path", "image", datapath="data", grayscale=True)] *)
Definition gray_image : ImageReader.t :=
  ImageReader.init "path" "image" (Some "data") (Some true).

(** [ScalarReader("a", "out1")] and [ScalarReader("b", "out2")] *)
Definition reader_a : reader := Scalar (ScalarReader.init "a" "out1" None SNone None).
Definition reader_b : reader := Scalar (ScalarReader.init "b" "out2" None SNone None).

(** [ReaderCompose([ScalarReader("a", "out1"), ScalarReader("b", "out2")])]
    and the same with the readers swapped. *)
Definition a_then_b : ReaderCompose.t := ReaderCompose.init [reader_a; reader_b] None.
Definition b_then_a : ReaderCompose.t := ReaderCompose.init [reader_b; reader_a] None.

(** [ReaderCompose([ScalarReader("a", "out1"), BaseReader("b", "out2")])] *)
Definition with_base : ReaderCompose.t :=
  ReaderCompose.init [reader_a; Base (BaseReader.init "b" "out2")] None.


(** [ScalarReader("x", "y", default_value=2.0, one_hot_classes=5)] *)
Definition one_hot_default_2 : ScalarReader.t :=
  ScalarReader.init "x" "y" None (SFloat Float.two64) (Some 5).

Definition row_cat : record := {[ "path" := SStr "cat.png" ]}.
Definition row_abc : record :=
  {[ "a" := SInt 1; "b" := SInt 2; "c" := SStr "unused" ]}.
End Inputs.
End Inputs.

(** * Properties *)

(** ** The frame of a call *)

Section Frame.
Context {S : Type}.

Lemma preserves_ret {A} (a : A) : preserves (mret a : M S A).
Proof. by intros σ. Qed.

Lemma preserves_bind {A B} (m : M S A) (f : A → M S B) :
  preserves m → (∀ a, preserves (f a)) → preserves (m ≫= f).
Proof.
  intros Hm Hf σ. unfold mbind, M_bind.
  specialize (Hm σ). destruct (m σ) as [σ' [a|e]]; simpl in *; subst σ'.
  - apply Hf.
  - done.
Qed.

Lemma preserves_fmap {A B} (g : A → B) (m : M S A) :
  preserves m → preserves (g <$> m).
Proof.
  intros Hm. apply preserves_bind; [done|]. intros a. apply preserves_ret.
Qed.

Lemma preserves_attr {A} (f : S → A) : preserves (attr f).
Proof. by intros σ. Qed.

Lemma preserves_row_get key default : preserves (row_get (S:=S) key default).
Proof. by intros σ. Qed.

Lemma preserves_row_getitem key : preserves (row_getitem (S:=S) key).
Proof. by intros σ. Qed.

Lemma preserves_lift {A} (r : result A) : preserves (lift r : M S A).
Proof. by intros σ. Qed.

(** What a frame-preserving call does is its outcome. *)
Lemma preserves_run {A} (m : M S A) self row :
  preserves m → run m self row = (Frame self row, outcome m self row).
Proof.
  intros Hm. unfold outcome, run. specialize (Hm (Frame self row)).
  destruct (m (Frame self row)) as [σ r]; simpl in *. by subst σ.
Qed.

(** The predicate is not void: a store to the record breaks it. *)
Lemma row_setitem_writes (self : S) :
  (row_setitem "k" SNone (Frame self ∅)).1 ≠ Frame self ∅.
Proof. intros Heq. by apply (f_equal (λ σ, f_row σ !! "k")) in Heq. Qed.
End Frame.

Create HintDb frame discriminated.
#[global] Hint Resolve preserves_ret preserves_fmap preserves_attr
  preserves_row_get preserves_row_getitem preserves_lift : frame.
#[global] Hint Extern 2 (preserves (_ ≫= _)) =>
  apply preserves_bind; [|intros ?] : frame.
#[global] Hint Extern 5 (preserves (match ?x with _ => _ end)) =>
  destruct x : frame.
#[global] Hint Extern 1 (preserves (let _ := _ in _)) => cbv zeta : frame.

Lemma BaseReader_call_preserves : preserves BaseReader.call.
Proof. unfold BaseReader.call. auto with frame. Qed.

Lemma ImageReader_call_preserves `{Runtime} : preserves ImageReader.call.
Proof. unfold ImageReader.call. auto 20 with frame. Qed.

Lemma ScalarReader_call_preserves : preserves ScalarReader.call.
Proof. unfold ScalarReader.call. auto 30 with frame. Qed.

Lemma TextReader_call_preserves : preserves TextReader.call.
Proof. unfold TextReader.call. auto 20 with frame. Qed.

(** ** Outcomes of frame-preserving calls *)

Section Outcome.
Context {S : Type}.
Implicit Types (self : S) (row : record).

Lemma outcome_ret {A} (a : A) self row :
  outcome (mret a : M S A) self row = Ok a.
Proof. done. Qed.

Lemma outcome_bind {A B} (m : M S A) (f : A → M S B) self row :
  preserves m →
  outcome (m ≫= f) self row
  = outcome m self row ≫= λ a, outcome (f a) self row.
Proof.
  intros Hm. unfold outcome, run. cbv [mbind M_bind result_bind].
  specialize (Hm (Frame self row)).
  destruct (m (Frame self row)) as [σ [a|e]]; simpl in *; subst σ; reflexivity.
Qed.

Lemma outcome_attr {A} (f : S → A) self row :
  outcome (attr f) self row = Ok (f self).
Proof. done. Qed.

Lemma outcome_row_get key default self row :
  outcome (row_get (S:=S) key default) self row
  = Ok (Py.dict_get row key default).
Proof. done. Qed.

Lemma outcome_row_getitem key self row :
  outcome (row_getitem (S:=S) key) self row = Py.dict_getitem row key.
Proof. done. Qed.

Lemma outcome_lift {A} (r : result A) self row :
  outcome (lift r : M S A) self row = r.
Proof. done. Qed.
End Outcome.

Ltac outcome_step :=
  first
    [ rewrite outcome_ret
    | rewrite outcome_attr
    | rewrite outcome_row_get
    | rewrite outcome_row_getitem
    | rewrite outcome_lift
    | rewrite outcome_bind by auto 30 with frame ].
Ltac outcomes :=
  cbn [mbind result_bind]; repeat (outcome_step; cbn [mbind result_bind]).

(** The three readers, as equations between results. *)

Lemma ImageReader_outcome `{Runtime} (r : ImageReader.t) (row : record) :
  outcome ImageReader.call r row =
    x ← Py.dict_getitem row (ImageReader.row_key r);
    img ← read_image (str x) (ImageReader.datapath r) (ImageReader.grayscale r);
    Ok {[ ImageReader.dict_key r := VImage img ]}.
Proof.
  unfold ImageReader.call. outcomes.
  destruct (Py.dict_getitem _ _) as [x|e]; [|done]. outcomes.
  destruct (read_image _ _ _) as [img|e]; [|done]. by outcomes.
Qed.

Lemma ScalarReader_outcome (r : ScalarReader.t) (row : record) :
  outcome ScalarReader.call r row =
    scalar ← ScalarReader.dtype r
      (Py.dict_get row (ScalarReader.row_key r) (ScalarReader.default_value r));
    v ← match ScalarReader.one_hot_classes r with
        | Some n =>
            if Py.is_not_none scalar then
              nonneg ← Py.ge scalar 0;
              if (nonneg : bool) then
                one_hot ← Py.np_zeros n;
                one_hot ← Py.ndarray_setitem one_hot scalar Float.one32;
                Ok (VArray one_hot)
              else Ok (VScalar scalar)
            else Ok (VScalar scalar)
        | None => Ok (VScalar scalar)
        end;
    Ok {[ ScalarReader.dict_key r := v ]}.
Proof.
  unfold ScalarReader.call. outcomes.
  destruct (ScalarReader.dtype r _) as [scalar|e]; [|done]. outcomes.
  destruct (ScalarReader.one_hot_classes r) as [n|]; [|by outcomes].
  destruct (Py.is_not_none scalar); [|by outcomes]. outcomes.
  destruct (Py.ge scalar 0) as [[]|e]; [| by outcomes | done]. outcomes.
  destruct (Py.np_zeros n) as [a|e]; [|done]. outcomes.
  destruct (Py.ndarray_setitem a scalar Float.one32) as [a'|e]; [|done].
  by outcomes.
Qed.

Lemma TextReader_outcome (r : TextReader.t) (row : record) :
  outcome TextReader.call r row =
    text ← Py.dict_getitem row (TextReader.row_key r);
    text ← TextReader.encode_fn r text;
    Ok {[ TextReader.dict_key r := text ]}.
Proof.
  unfold TextReader.call. outcomes.
  destruct (Py.dict_getitem _ _) as [x|e]; [|done]. outcomes.
  destruct (TextReader.encode_fn r x) as [v|e]; [|done]. by outcomes.
Qed.

(** ** Comparisons with an integer *)

Section Comparisons.
Local Open Scope Z_scope.


Lemma ltb_Z_geb_Z f : Float.ltb_Z f 0 = true → Float.geb_Z f 0 = false.
Proof.
  destruct f as [s|s| |s m e]; cbn [Float.ltb_Z Float.geb_Z]; try done.
  - by intros ->.
  - destruct (0 <=? e), s; cbn [cond_Zopp]; lia.
Qed.


(** A scalar below zero is a number that fails [>= 0]. *)
Lemma lt_zero_not_ge_zero x :
  Py.lt x 0 = Ok true → Py.is_not_none x = true ∧ Py.ge x 0 = Ok false.
Proof.
  destruct x as [|z|f|f|s]; simpl; try done; intros [= Hlt]; split; try done;
    f_equal.
  - lia.
  - by apply ltb_Z_geb_Z.
  - by apply ltb_Z_geb_Z.
Qed.

(** A number at or above zero is not [None]. *)
Lemma ge_is_not_none x n b : Py.ge x n = Ok b → Py.is_not_none x = true.
Proof. by destruct x. Qed.
End Comparisons.

(** ** numpy vectors *)

Lemma one_hot_vector_insert (n k : nat) :
  k < n → <[k := Float.one32]> (replicate n Float.zero) = one_hot_vector n k.
Proof.
  intros Hk. apply list_eq. intros i. unfold one_hot_vector.
  rewrite list_lookup_fmap.
  destruct (decide (i < n)) as [Hi|Hi].
  - rewrite lookup_seq_lt by done. simpl.
    destruct (decide (i = k)) as [->|Hne].
    + rewrite list_lookup_insert_eq; [done|]. by rewrite length_replicate.
    + rewrite list_lookup_insert_ne by done. by rewrite lookup_replicate_2.
  - rewrite lookup_seq_ge by lia. simpl.
    apply lookup_ge_None. rewrite length_insert, length_replicate. lia.
Qed.

Lemma one_hot_vector_length n k : length (one_hot_vector n k) = n.
Proof. unfold one_hot_vector. by rewrite length_fmap, length_seq. Qed.

Lemma one_hot_vector_lookup n k i :
  i < n →
  one_hot_vector n k !! i = Some (if decide (i = k) then Float.one32 else Float.zero).
Proof.
  intros Hi. unfold one_hot_vector.
  by rewrite list_lookup_fmap, lookup_seq_lt.
Qed.

(** [one_hot[k] = 1.0] on fresh zeros, for an index in range. *)
Lemma np_one_hot_in_range (n k : Z) :
  (0 ≤ k < n)%Z →
  (a ← Py.np_zeros n; Py.ndarray_setitem a (SInt k) Float.one32)
  = Ok (one_hot_vector (Z.to_nat n) (Z.to_nat k)).
Proof.
  intros Hk. unfold Py.np_zeros.
  replace (n <? 0)%Z with false by lia. cbn [mbind result_bind].
  unfold Py.ndarray_setitem. rewrite length_replicate, Z2Nat.id by lia.
  replace (0 <=? k)%Z with true by lia. replace (k <? n)%Z with true by lia.
  cbn [andb]. by rewrite one_hot_vector_insert by lia.
Qed.



(** [one_hot[x] = 1.0] for a floating-point [x]: not an index. *)
Lemma np_one_hot_float_index (n : Z) (x : scalar) :
  (0 ≤ n)%Z → (∃ f, x = SFloat f ∨ x = SFloat32 f) →
  (a ← Py.np_zeros n; Py.ndarray_setitem a x Float.one32) = Raise IndexError.
Proof.
  intros Hn (f & [-> | ->]); unfold Py.np_zeros;
    by replace (n <? 0)%Z with false by lia.
Qed.

(** ** Dispatch on the class of a reader *)

Lemma outcome_fmap {S A B} (g : A → B) (m : M S A) self row :
  preserves m → outcome (g <$> m) self row = g <$> outcome m self row.
Proof.
  intros Hm. unfold fmap at 1, M_fmap. rewrite outcome_bind by done.
  by destruct (outcome m self row).
Qed.

Lemma method_frame {S A} (wrap : S → reader) (m : M S A) self row :
  preserves m → (Reader.method wrap m self row).1 = Frame (wrap self) row.
Proof.
  intros Hm. unfold Reader.method. by rewrite preserves_run by done.
Qed.

Lemma method_outcome {S A} (wrap : S → reader) (m : M S A) self row :
  (Reader.method wrap m self row).2 = outcome m self row.
Proof.
  unfold Reader.method, outcome. by destruct (run m self row).
Qed.

Section Dispatch.
Context `{Runtime}.

Lemma Reader_call_frame (fn : reader) (row : record) :
  (Reader.call fn row).1 = Frame fn row.
Proof.
  destruct fn as [r|r|r|r]; cbn [Reader.call]; apply method_frame;
    auto using BaseReader_call_preserves, ImageReader_call_preserves,
      ScalarReader_call_preserves, TextReader_call_preserves with frame.
Qed.

Lemma Reader_outcome_Base r row : Reader.outcome (Base r) row = Ok None.
Proof. done. Qed.

Lemma Reader_outcome_Image r row :
  Reader.outcome (Image r) row = Some <$> outcome ImageReader.call r row.
Proof.
  unfold Reader.outcome. cbn [Reader.call]. rewrite method_outcome.
  apply outcome_fmap, ImageReader_call_preserves.
Qed.

Lemma Reader_outcome_Scalar r row :
  Reader.outcome (Scalar r) row = Some <$> outcome ScalarReader.call r row.
Proof.
  unfold Reader.outcome. cbn [Reader.call]. rewrite method_outcome.
  apply outcome_fmap, ScalarReader_call_preserves.
Qed.

Lemma Reader_outcome_Text r row :
  Reader.outcome (Text r) row = Some <$> outcome TextReader.call r row.
Proof.
  unfold Reader.outcome. cbn [Reader.call]. rewrite method_outcome.
  apply outcome_fmap, TextReader_call_preserves.
Qed.
End Dispatch.

(** ** Merging dicts *)

Lemma lookup_dict_merge (a b : mapping) (key : string) :
  Py.dict_merge a b !! key
  = match b !! key with Some v => Some v | None => a !! key end.
Proof.
  unfold Py.dict_merge. rewrite lookup_union.
  by destruct (b !! key), (a !! key).
Qed.

Lemma lookup_merged (acc : mapping) (outs : list mapping) (key : string) :
  foldl Py.dict_merge acc outs !! key
  = match last_write key outs with Some v => Some v | None => acc !! key end.
Proof.
  revert acc. induction outs as [|out outs IH]; intros acc; [done|].
  cbn [foldl last_write]. rewrite IH.
  destruct (last_write key outs); [done|]. apply lookup_dict_merge.
Qed.

Lemma last_write_app key (outs1 outs2 : list mapping) :
  last_write key (outs1 ++ outs2)
  = match last_write key outs2 with
    | Some v => Some v
    | None => last_write key outs1
    end.
Proof.
  induction outs1 as [|out outs1 IH]; cbn [app last_write].
  - by destruct (last_write key outs2).
  - rewrite IH. by destruct (last_write key outs2), (last_write key outs1).
Qed.

(** ** The two loops of the pipeline *)

Section Pipeline.
Context `{Runtime}.
Implicit Types (c : ReaderCompose.t) (row : record) (acc : mapping).

Lemma invoke_preserves fn : preserves (ReaderCompose.invoke fn).
Proof.
  intros [c row]. unfold ReaderCompose.invoke. cbn [f_row f_self].
  pose proof (Reader_call_frame fn row) as Hfr.
  destruct (Reader.call fn row) as [σ out]. simpl in *. by subst σ.
Qed.

Lemma outcome_invoke fn c row :
  outcome (ReaderCompose.invoke fn) c row = Reader.outcome fn row.
Proof.
  unfold outcome, run, ReaderCompose.invoke, Reader.outcome. cbn [f_row].
  by destruct (Reader.call fn row).
Qed.

Lemma run_readers_preserves fns acc :
  preserves (ReaderCompose.run_readers fns acc).
Proof.
  revert acc. induction fns as [|fn fns IH]; intros acc;
    cbn [ReaderCompose.run_readers]; auto using invoke_preserves with frame.
Qed.

Lemma run_mixins_preserves fns acc :
  preserves (ReaderCompose.run_mixins fns acc).
Proof.
  revert acc. induction fns as [|fn fns IH]; intros acc;
    cbn [ReaderCompose.run_mixins]; auto with frame.
Qed.

Lemma ReaderCompose_call_preserves : preserves ReaderCompose.call.
Proof.
  unfold ReaderCompose.call.
  auto 10 using run_readers_preserves, run_mixins_preserves with frame.
Qed.

Lemma run_readers_cons fn fns acc c row :
  outcome (ReaderCompose.run_readers (fn :: fns) acc) c row =
    out ← Reader.outcome fn row;
    acc' ← Py.dict_merge_ret acc out;
    outcome (ReaderCompose.run_readers fns acc') c row.
Proof.
  cbn [ReaderCompose.run_readers].
  rewrite outcome_bind by apply invoke_preserves. rewrite outcome_invoke.
  destruct (Reader.outcome fn row) as [out|e]; [|done]. by outcomes.
Qed.

Lemma run_mixins_cons (fn : mixin) fns acc c row :
  outcome (ReaderCompose.run_mixins (fn :: fns) acc) c row =
    out ← fn acc;
    outcome (ReaderCompose.run_mixins fns (Py.dict_merge acc out)) c row.
Proof. cbn [ReaderCompose.run_mixins]. by outcomes. Qed.

Lemma ReaderCompose_outcome c row :
  outcome ReaderCompose.call c row =
    result ← outcome (ReaderCompose.run_readers (ReaderCompose.readers c) ∅) c row;
    outcome (ReaderCompose.run_mixins (ReaderCompose.mixins c) result) c row.
Proof.
  unfold ReaderCompose.call. outcomes.
  rewrite outcome_bind by apply run_readers_preserves.
  destruct (outcome (ReaderCompose.run_readers _ _) c row) as [m|e]; [|done].
  outcomes. rewrite outcome_bind by apply run_mixins_preserves.
  by destruct (outcome (ReaderCompose.run_mixins _ _) c row).
Qed.

(** When every reader returns a dict, the first loop merges them. *)
Lemma run_readers_ok fns outs acc c row :
  Forall2 (returns row) fns outs →
  outcome (ReaderCompose.run_readers fns acc) c row
  = Ok (foldl Py.dict_merge acc outs).
Proof.
  intros Hall. revert acc.
  induction Hall as [|fn out fns outs Hfn _ IH]; intros acc; [done|].
  rewrite run_readers_cons, Hfn. cbn [mbind result_bind Py.dict_merge_ret].
  apply IH.
Qed.

(** The first loop stops at the first reader that raises. *)
Lemma run_readers_raise pre fn post outs e acc c row :
  Forall2 (returns row) pre outs →
  Reader.outcome fn row = Raise e →
  outcome (ReaderCompose.run_readers (pre ++ fn :: post) acc) c row = Raise e.
Proof.
  intros Hall Hfn. revert acc.
  induction Hall as [|fn' out pre outs Hfn' _ IH]; intros acc; cbn [app].
  - by rewrite run_readers_cons, Hfn.
  - rewrite run_readers_cons, Hfn'. cbn [mbind result_bind Py.dict_merge_ret].
    apply IH.
Qed.

(** When every mixin returns a dict, the second loop merges them. *)
Lemma run_mixins_ok fns outs acc c row :
  mixin_outs fns acc outs →
  outcome (ReaderCompose.run_mixins fns acc) c row
  = Ok (foldl Py.dict_merge acc outs).
Proof.
  induction 1 as [acc|fn fns acc out outs Hfn _ IH]; [done|].
  rewrite run_mixins_cons, Hfn. cbn [mbind result_bind]. apply IH.
Qed.

(** Conversely, a loop that returns has merged the dicts of all its
    callables. *)
Lemma run_readers_ok_inv fns acc c row result :
  outcome (ReaderCompose.run_readers fns acc) c row = Ok result →
  ∃ outs, Forall2 (returns row) fns outs ∧ result = foldl Py.dict_merge acc outs.
Proof.
  revert acc. induction fns as [|fn fns IH]; intros acc.
  - intros [= <-]. by exists [].
  - rewrite run_readers_cons.
    destruct (Reader.outcome fn row) as [[out|]|e] eqn:Hfn; try done.
    cbn [mbind result_bind Py.dict_merge_ret]. intros Hrest.
    destruct (IH _ Hrest) as (outs & Hall & ->).
    exists (out :: outs). split; [by constructor | done].
Qed.

Lemma run_mixins_ok_inv fns acc c row result :
  outcome (ReaderCompose.run_mixins fns acc) c row = Ok result →
  ∃ outs, mixin_outs fns acc outs ∧ result = foldl Py.dict_merge acc outs.
Proof.
  revert acc. induction fns as [|fn fns IH]; intros acc.
  - intros [= <-]. exists []. split; [constructor | done].
  - rewrite run_mixins_cons. destruct (fn acc) as [out|e] eqn:Hfn; [|done].
    cbn [mbind result_bind]. intros Hrest.
    destruct (IH _ Hrest) as (outs & Hall & ->).
    exists (out :: outs). split; [by constructor | done].
Qed.

Lemma ReaderCompose_ok_inv c row result :
  outcome ReaderCompose.call c row = Ok result →
  ∃ outs mouts,
    Forall2 (returns row) (ReaderCompose.readers c) outs
    ∧ mixin_outs (ReaderCompose.mixins c) (foldl Py.dict_merge ∅ outs) mouts
    ∧ result = foldl Py.dict_merge ∅ (outs ++ mouts).
Proof.
  rewrite ReaderCompose_outcome.
  destruct (outcome (ReaderCompose.run_readers _ _) c row) as [m|e] eqn:Hr;
    [|done].
  cbn [mbind result_bind]. intros Hm.
  apply run_readers_ok_inv in Hr as (outs & Hall & ->).
  apply run_mixins_ok_inv in Hm as (mouts & Hmix & ->).
  exists outs, mouts. by rewrite foldl_app.
Qed.

(** The second loop stops at the first mixin that raises. *)
Lemma run_mixins_raise pre (fn : mixin) post outs e acc c row :
  mixin_outs pre acc outs →
  fn (foldl Py.dict_merge acc outs) = Raise e →
  outcome (ReaderCompose.run_mixins (pre ++ fn :: post) acc) c row = Raise e.
Proof.
  induction 1 as [acc|fn' fns acc out outs Hfn' _ IH]; cbn [app foldl]; intros Hfn.
  - by rewrite run_mixins_cons, Hfn.
  - rewrite run_mixins_cons, Hfn'. cbn [mbind result_bind]. by apply IH.
Qed.
End Pipeline.

(** ** A class count below zero *)


(** * The claims *)

Section Claims.
Context `{Runtime}.
Local Open Scope Z_scope.

(** C1.  A pipeline call starts from the empty mapping and merges the
    dicts of its readers in list order, then applies each mixin in list
    order to the mapping merged so far and merges what it returns.  The
    value of a key in the result is the one written last, over readers
    and mixins together.  With two scalar readers from "a" and "b" to
    the same key "out", the record {"a": 1, "b": 2} gives {"out": 2}:
    the value read from "b", which under the default [dtype] is the
    [numpy.float32] equal to 2. *)
Theorem ReaderCompose_last_write_wins :
  (∀ (c : ReaderCompose.t) (row : record) (outs mouts : list mapping)
     (merged : mapping),
      Forall2 (returns row) (ReaderCompose.readers c) outs →
      (∀ key, merged !! key = last_write key outs) →
      mixin_outs (ReaderCompose.mixins c) merged mouts →
      ∃ result,
        outcome ReaderCompose.call c row = Ok result
        ∧ ∀ key, result !! key = last_write key (outs ++ mouts))
  ∧ outcome ReaderCompose.call Sample.same_key Sample.row_ab
    = Ok {[ "out" := VScalar (SFloat32 Sample.two32) ]}
  ∧ Py.np_float32 (SInt 2) = Ok (SFloat32 Sample.two32)
  ∧ Py.eq_int (SFloat32 Sample.two32) 2 = true.
Proof.
  split; [|by vm_compute].
  intros c row outs mouts merged Hreaders Hmerged Hmixins.
  assert (merged = foldl Py.dict_merge ∅ outs) as ->.
  { apply map_eq. intros key.
    rewrite Hmerged, lookup_merged, lookup_empty.
    by destruct (last_write key outs). }
  exists (foldl Py.dict_merge ∅ (outs ++ mouts)). split.
  - rewrite ReaderCompose_outcome, (run_readers_ok _ outs) by done.
    cbn [mbind result_bind]. rewrite (run_mixins_ok _ mouts) by done.
    by rewrite foldl_app.
  - intros key. rewrite lookup_merged, lookup_empty.
    by destruct (last_write key (outs ++ mouts)).
Qed.

(** C2, for an integer scalar.  With a one-hot class count [n], a field
    that is present and coerces to an integer [k] with [0 ≤ k < n] gives
    the float32 vector of [n] zeros with 1.0 at index [k].  The scalar
    itself is the index, no [int(scalar)] is applied: a floating-point
    scalar at or above zero makes the call raise [IndexError] instead.
    The record {"x": 3} with [dtype=int] and five classes gives
    [0, 0, 0, 1, 0]. *)
Theorem ScalarReader_one_hot_integer :
  (∀ (r : ScalarReader.t) (row : record) (x : scalar) (n k : Z),
      ScalarReader.one_hot_classes r = Some n →
      row !! ScalarReader.row_key r = Some x →
      ScalarReader.dtype r x = Ok (SInt k) →
      0 ≤ k < n →
      outcome ScalarReader.call r row
      = Ok {[ ScalarReader.dict_key r
              := VArray (one_hot_vector (Z.to_nat n) (Z.to_nat k)) ]})
  ∧ (∀ (r : ScalarReader.t) (row : record) (s : scalar) (n : Z),
      ScalarReader.one_hot_classes r = Some n →
      0 ≤ n →
      ScalarReader.dtype r
        (Py.dict_get row (ScalarReader.row_key r) (ScalarReader.default_value r))
      = Ok s →
      (∃ f, s = SFloat f ∨ s = SFloat32 f) →
      Py.ge s 0 = Ok true →
      outcome ScalarReader.call r row = Raise IndexError)
  ∧ outcome ScalarReader.call Sample.one_hot_int (Sample.row_x (SInt 3))
    = Ok {[ "y" := VArray [Float.zero; Float.zero; Float.zero;
                           Float.one32; Float.zero] ]}.
Proof.
  split_and!; [| |by vm_compute].
  - intros r row x n k Hn Hx Hdtype Hk.
    rewrite ScalarReader_outcome. unfold Py.dict_get. rewrite Hx, Hdtype, Hn.
    cbn [mbind result_bind Py.is_not_none Py.ge].
    replace (0 <=? k) with true by lia.
    pose proof (np_one_hot_in_range n k Hk) as Hvec.
    destruct (Py.np_zeros n) as [a|e]; cbn [mbind result_bind] in *; [|done].
    by rewrite Hvec.
  - intros r row s n Hn Hcount Hdtype Hfloat Hge.
    rewrite ScalarReader_outcome, Hdtype, Hn. cbn [mbind result_bind].
    rewrite (ge_is_not_none _ _ _ Hge), Hge. cbn [mbind result_bind].
    pose proof (np_one_hot_float_index n s Hcount Hfloat) as Hvec.
    destruct (Py.np_zeros n) as [a|e]; cbn [mbind result_bind] in *;
      [by rewrite Hvec | by injection Hvec as ->].
Qed.

(** C3.  When the source field is absent, a scalar reader behaves as on
    the record that holds the default value under that field: the
    default is what is coerced.  The lookup raises nothing, so a
    [KeyError] can only come out of the numeric type itself, and without
    one-hot encoding the output is the coerced default.  The record {}
    with [default_value=2.0] and [dtype=float] gives {"y": 2.0}. *)
Theorem ScalarReader_absent_field_default :
  (∀ (r : ScalarReader.t) (row : record),
      row !! ScalarReader.row_key r = None →
      outcome ScalarReader.call r row
      = outcome ScalarReader.call r
          (<[ScalarReader.row_key r := ScalarReader.default_value r]> row)
      ∧ ((∀ key, ScalarReader.dtype r (ScalarReader.default_value r)
                 ≠ Raise (KeyError key)) →
         ∀ key, outcome ScalarReader.call r row ≠ Raise (KeyError key))
      ∧ (∀ s, ScalarReader.one_hot_classes r = None →
              ScalarReader.dtype r (ScalarReader.default_value r) = Ok s →
              outcome ScalarReader.call r row
              = Ok {[ ScalarReader.dict_key r := VScalar s ]}))
  ∧ outcome ScalarReader.call Sample.float_default_2 Sample.row_empty
    = Ok {[ "y" := VScalar (SFloat Float.two64) ]}.
Proof.
  split; [|by vm_compute].
  intros r row Hx. rewrite !ScalarReader_outcome. unfold Py.dict_get.
  rewrite Hx, lookup_insert_eq. split_and!.
  - done.
  - intros Hdtype key.
    destruct (ScalarReader.dtype r _) as [s|e] eqn:Hs;
      [|by intros [= ->]; eapply Hdtype].
    cbn [mbind result_bind].
    destruct (ScalarReader.one_hot_classes r) as [n|]; [|done].
    destruct (Py.is_not_none s); [|done].
    destruct s as [|z|f|f|t]; cbn [Py.ge mbind result_bind]; try done.
    + destruct (0 <=? z); [|done]. unfold Py.np_zeros.
      destruct (n <? 0); [done|]. cbn [mbind result_bind Py.ndarray_setitem].
      by repeat case_match.
    + destruct (Float.geb_Z f 0); [|done]. unfold Py.np_zeros.
      by destruct (n <? 0).
    + destruct (Float.geb_Z f 0); [|done]. unfold Py.np_zeros.
      by destruct (n <? 0).
  - intros s Hn Hs. by rewrite Hs, Hn.
Qed.

(** C4, as the code has it.  With no default value and no one-hot class
    count, an absent source field sends [None] to the numeric type, and
    the call does what the numeric type does with it: it returns the
    coerced value under the output field, or raises what the numeric
    type raises.  The output is [None] exactly when the numeric type
    maps [None] to [None].  [int] and [float] raise [TypeError] on
    [None]; the default [numpy.float32] returns NaN. *)
Theorem ScalarReader_absent_field_no_default :
  (∀ (r : ScalarReader.t) (row : record),
      row !! ScalarReader.row_key r = None →
      ScalarReader.default_value r = SNone →
      ScalarReader.one_hot_classes r = None →
      outcome ScalarReader.call r row
      = (s ← ScalarReader.dtype r SNone;
         Ok {[ ScalarReader.dict_key r := VScalar s ]})
      ∧ (outcome ScalarReader.call r row
         = Ok {[ ScalarReader.dict_key r := VScalar SNone ]}
         ↔ ScalarReader.dtype r SNone = Ok SNone))
  ∧ outcome ScalarReader.call Sample.int_plain Sample.row_empty
    = Raise TypeError
  ∧ outcome ScalarReader.call
      (ScalarReader.init "x" "y" (Some Py.float) SNone None) Sample.row_empty
    = Raise TypeError
  ∧ outcome ScalarReader.call Sample.float32_plain Sample.row_empty
    = Ok {[ "y" := VScalar (SFloat32 Float.nan) ]}.
Proof.
  split; [|by vm_compute].
  intros r row Hx Hdefault Hn.
  rewrite ScalarReader_outcome. unfold Py.dict_get. rewrite Hx, Hdefault, Hn.
  split; [done|].
  destruct (ScalarReader.dtype r SNone) as [s|e]; cbn [mbind result_bind].
  - split.
    + intros Heq.
      apply (f_equal (λ out : result mapping,
               match out with
               | Ok m => m !! ScalarReader.dict_key r
               | Raise _ => None
               end)) in Heq.
      rewrite !lookup_singleton_eq in Heq. by injection Heq as ->.
    + by intros [= ->].
  - by split.
Qed.

(** C5.  With a one-hot class count, a coerced scalar below zero is
    not encoded: the output is the scalar itself and nothing is raised.
    The record {"x": -1} with five classes gives {"y": -1}, as the
    [numpy.float32] equal to -1 under the default [dtype]. *)
Theorem ScalarReader_negative_bypasses_one_hot :
  (∀ (r : ScalarReader.t) (row : record) (s : scalar) (n : Z),
      ScalarReader.one_hot_classes r = Some n →
      ScalarReader.dtype r
        (Py.dict_get row (ScalarReader.row_key r) (ScalarReader.default_value r))
      = Ok s →
      Py.lt s 0 = Ok true →
      outcome ScalarReader.call r row
      = Ok {[ ScalarReader.dict_key r := VScalar s ]})
  ∧ outcome ScalarReader.call Sample.one_hot_float32 (Sample.row_x (SInt (-1)))
    = Ok {[ "y" := VScalar (SFloat32 Sample.minus_one32) ]}
  ∧ Py.eq_int (SFloat32 Sample.minus_one32) (-1) = true.
Proof.
  split; [|by vm_compute].
  intros r row s n Hn Hdtype Hneg.
  apply lt_zero_not_ge_zero in Hneg as [Hsome Hge].
  rewrite ScalarReader_outcome, Hdtype, Hn. cbn [mbind result_bind].
  by rewrite Hsome, Hge.
Qed.


(** C7.  A text reader returns the encoded source field under the output
    field when the record has the source field, with what the encode
    function raises raised, and raises [KeyError] when the record lacks
    it: there is no default.  The default encode function is the
    identity.  With [str.upper], {"t": "hello"} gives {"enc": "HELLO"}
    and {} raises. *)
Theorem TextReader_call_spec :
  (∀ (r : TextReader.t) (row : record) (x : scalar),
      row !! TextReader.row_key r = Some x →
      outcome TextReader.call r row
      = (v ← TextReader.encode_fn r x; Ok {[ TextReader.dict_key r := v ]}))
  ∧ (∀ (r : TextReader.t) (row : record),
      row !! TextReader.row_key r = None →
      outcome TextReader.call r row = Raise (KeyError (TextReader.row_key r)))
  ∧ (∀ (row_key dict_key : string) (x : scalar),
      TextReader.encode_fn (TextReader.init row_key dict_key None) x
      = Ok (VScalar x))
  ∧ outcome TextReader.call Sample.upper_text Sample.row_t
    = Ok {[ "enc" := VScalar (SStr "HELLO") ]}
  ∧ outcome TextReader.call Sample.upper_text Sample.row_empty
    = Raise (KeyError "t").
Proof.
  split_and!; [| |done|by vm_compute|by vm_compute].
  - intros r row x Hx. rewrite TextReader_outcome. unfold Py.dict_getitem.
    by rewrite Hx.
  - intros r row Hx. rewrite TextReader_outcome. unfold Py.dict_getitem.
    by rewrite Hx.
Qed.

(** C8.  The first reader or mixin that raises ends the pipeline call
    with that very exception, and no mapping is returned.  Nothing is
    assumed of the readers and mixins after it, not even that a call to
    them would return: they have no part in the outcome.  A failure of
    the image decoder is the failure of the image reader, and so of the
    pipeline. *)
Theorem ReaderCompose_first_error_propagates :
  (∀ (c : ReaderCompose.t) (row : record) (pre post : list reader)
     (fn : reader) (outs : list mapping) (e : exn),
      ReaderCompose.readers c = pre ++ fn :: post →
      Forall2 (returns row) pre outs →
      Reader.outcome fn row = Raise e →
      outcome ReaderCompose.call c row = Raise e)
  ∧ (∀ (c : ReaderCompose.t) (row : record) (pre post : list mixin)
       (fn : mixin) (outs mouts : list mapping) (merged current : mapping)
       (e : exn),
      Forall2 (returns row) (ReaderCompose.readers c) outs →
      (∀ key, merged !! key = last_write key outs) →
      ReaderCompose.mixins c = pre ++ fn :: post →
      mixin_outs pre merged mouts →
      (∀ key, current !! key = last_write key (outs ++ mouts)) →
      fn current = Raise e →
      outcome ReaderCompose.call c row = Raise e)
  ∧ (∀ (r : ImageReader.t) (row : record) (x : scalar) (e : exn),
      row !! ImageReader.row_key r = Some x →
      read_image (str x) (ImageReader.datapath r) (ImageReader.grayscale r)
      = Raise e →
      Reader.outcome (Image r) row = Raise e).
Proof.
  split_and!.
  - intros c row pre post fn outs e Hc Hpre Hfn.
    rewrite ReaderCompose_outcome, Hc.
    by rewrite (run_readers_raise pre fn post outs e).
  - intros c row pre post fn outs mouts merged current e
      Hreaders Hmerged Hc Hpre Hcurrent Hfn.
    assert (merged = foldl Py.dict_merge ∅ outs) as ->.
    { apply map_eq. intros key.
      rewrite Hmerged, lookup_merged, lookup_empty.
      by destruct (last_write key outs). }
    assert (current = foldl Py.dict_merge (foldl Py.dict_merge ∅ outs) mouts)
      as ->.
    { apply map_eq. intros key.
      rewrite Hcurrent, <- foldl_app, lookup_merged, lookup_empty.
      by destruct (last_write key (outs ++ mouts)). }
    rewrite ReaderCompose_outcome, (run_readers_ok _ outs) by done.
    cbn [mbind result_bind]. rewrite Hc.
    by rewrite (run_mixins_raise pre fn post mouts e).
  - intros r row x e Hx Hread.
    rewrite Reader_outcome_Image, ImageReader_outcome.
    unfold Py.dict_getitem. rewrite Hx. cbn [mbind result_bind].
    by rewrite Hread.
Qed.

(** C9.  A reader call leaves the record and the attributes of the
    reader as it found them, whether it returns or raises: the frame
    after the call is the frame before it.  This holds for the call
    dispatched on any reader, and for each of the three classes. *)
Theorem readers_preserve_frame :
  (∀ (fn : reader) (row : record), (Reader.call fn row).1 = Frame fn row)
  ∧ (∀ (r : ImageReader.t) (row : record),
      (run ImageReader.call r row).1 = Frame r row)
  ∧ (∀ (r : ScalarReader.t) (row : record),
      (run ScalarReader.call r row).1 = Frame r row)
  ∧ (∀ (r : TextReader.t) (row : record),
      (run TextReader.call r row).1 = Frame r row).
Proof.
  split_and!; intros r row.
  - apply Reader_call_frame.
  - apply ImageReader_call_preserves.
  - apply ScalarReader_call_preserves.
  - apply TextReader_call_preserves.
Qed.

(** C10, as the code has it.  When the record holds [None] under the
    source field, the default value plays no part: [None] itself goes
    to the numeric type.  When the numeric type rejects [None], the call
    raises what it raises, a [TypeError] under [int] and [float].  When
    it accepts [None], the call goes on with the coerced value as for
    any stored value that coerces to it: without a one-hot class count
    it returns that value, and then it fails exactly when the numeric
    type does; with a class count the one-hot step applies.  Under the
    default [numpy.float32], [None] coerces to NaN and the call returns
    NaN, with or without a class count. *)
Theorem ScalarReader_null_field_is_coerced :
  (∀ (r : ScalarReader.t) (row : record),
      row !! ScalarReader.row_key r = Some SNone →
      (∀ default_value,
          outcome ScalarReader.call r row
          = outcome ScalarReader.call
              (ScalarReader.mk (ScalarReader.row_key r) (ScalarReader.dict_key r)
                 (ScalarReader.dtype r) default_value
                 (ScalarReader.one_hot_classes r))
              row)
      ∧ (∀ e, ScalarReader.dtype r SNone = Raise e →
              outcome ScalarReader.call r row = Raise e)
      ∧ (∀ s, ScalarReader.dtype r SNone = Ok s →
              ScalarReader.one_hot_classes r = None →
              outcome ScalarReader.call r row
              = Ok {[ ScalarReader.dict_key r := VScalar s ]})
      ∧ (∀ s (row' : record) (x' : scalar),
              ScalarReader.dtype r SNone = Ok s →
              row' !! ScalarReader.row_key r = Some x' →
              ScalarReader.dtype r x' = Ok s →
              outcome ScalarReader.call r row = outcome ScalarReader.call r row')
      ∧ (ScalarReader.one_hot_classes r = None →
         ∀ e, outcome ScalarReader.call r row = Raise e
              ↔ ScalarReader.dtype r SNone = Raise e)
      ∧ (∀ s, ScalarReader.dtype r SNone = Ok s →
              s = SNone ∨ s = SFloat Float.nan ∨ s = SFloat32 Float.nan →
              outcome ScalarReader.call r row
              = Ok {[ ScalarReader.dict_key r := VScalar s ]}))
  ∧ outcome ScalarReader.call Sample.int_default_2 (Sample.row_x SNone)
    = Raise TypeError
  ∧ outcome ScalarReader.call Sample.float_default_2 (Sample.row_x SNone)
    = Raise TypeError
  ∧ outcome ScalarReader.call Sample.float32_default_2 (Sample.row_x SNone)
    = Ok {[ "y" := VScalar (SFloat32 Float.nan) ]}
  ∧ outcome ScalarReader.call Inputs.one_hot_default_2 (Sample.row_x SNone)
    = Ok {[ "y" := VScalar (SFloat32 Float.nan) ]}.
Proof.
  split; [|by vm_compute].
  intros r row Hx. split_and!.
  - intros default_value. rewrite !ScalarReader_outcome.
    unfold Py.dict_get. cbn [ScalarReader.row_key ScalarReader.dtype
      ScalarReader.one_hot_classes ScalarReader.dict_key
      ScalarReader.default_value].
    by rewrite Hx.
  - intros e He. rewrite ScalarReader_outcome. unfold Py.dict_get.
    by rewrite Hx, He.
  - intros s Hs Hn. rewrite ScalarReader_outcome. unfold Py.dict_get.
    by rewrite Hx, Hs, Hn.
  - intros s row' x' Hs Hx' Hs'. rewrite !ScalarReader_outcome.
    unfold Py.dict_get. by rewrite Hx, Hx', Hs, Hs'.
  - intros Hn e. rewrite ScalarReader_outcome. unfold Py.dict_get.
    rewrite Hx, Hn.
    destruct (ScalarReader.dtype r SNone) as [s|e']; cbn [mbind result_bind];
      split; intros Heq; first [exact Heq | congruence].
  - intros s Hs Hcase. rewrite ScalarReader_outcome. unfold Py.dict_get.
    rewrite Hx, Hs. cbn [mbind result_bind].
    destruct (ScalarReader.one_hot_classes r) as [n|]; [|done].
    by destruct Hcase as [-> | [-> | ->]].
Qed.
End Claims.

(** * The claims on given inputs *)

Section OnSamples.
Local Open Scope Z_scope.
Local Existing Instance Sample.host.

Lemma ReaderCompose_last_write_wins_witness :
  ∃ result,
    outcome ReaderCompose.call Sample.same_key Sample.row_ab = Ok result
    ∧ ∀ key,
        result !! key
        = last_write key
            ([ {[ "out" := VScalar (SFloat32 Float.one32) ]};
               {[ "out" := VScalar (SFloat32 Sample.two32) ]} ] ++ []).
Proof.
  apply (proj1 ReaderCompose_last_write_wins Sample.same_key Sample.row_ab
           [ {[ "out" := VScalar (SFloat32 Float.one32) ]};
             {[ "out" := VScalar (SFloat32 Sample.two32) ]} ]
           []
           {[ "out" := VScalar (SFloat32 Sample.two32) ]}).
  - repeat constructor.
  - intros key. cbn [last_write].
    destruct (decide (key = "out")) as [->|Hne].
    + reflexivity.
    + rewrite !lookup_singleton_ne by done. reflexivity.
  - constructor.
Defined.

Lemma ScalarReader_one_hot_integer_witness :
  (0 ≤ 3 < 5)
  ∧ outcome ScalarReader.call Sample.one_hot_int (Sample.row_x (SInt 3))
    = Ok {[ "y" := VArray (one_hot_vector 5 3) ]}.
Proof.
  split; [lia|].
  apply (proj1 ScalarReader_one_hot_integer
           Sample.one_hot_int (Sample.row_x (SInt 3)) (SInt 3) 5 3);
    [reflexivity | reflexivity | reflexivity | lia].
Defined.

(** C2 as stated, on a floating-point scalar.  The field is present, its
    value coerces to 3.0, which is at least 0 and below the class count
    5, and [int(3.0)] is 3; yet the call raises [IndexError], under
    [dtype=float] and under the default [numpy.float32] alike. *)
Lemma ScalarReader_one_hot_float_raises :
  ScalarReader.one_hot_classes Sample.one_hot_float = Some 5
  ∧ Sample.row_x (SInt 3) !! ScalarReader.row_key Sample.one_hot_float
    = Some (SInt 3)
  ∧ ScalarReader.dtype Sample.one_hot_float (SInt 3)
    = Ok (SFloat Sample.three64)
  ∧ Py.ge (SFloat Sample.three64) 0 = Ok true
  ∧ Py.lt (SFloat Sample.three64) 5 = Ok true
  ∧ Py.int (SFloat Sample.three64) = Ok (SInt 3)
  ∧ outcome ScalarReader.call Sample.one_hot_float (Sample.row_x (SInt 3))
    = Raise IndexError
  ∧ outcome ScalarReader.call Sample.one_hot_float32 (Sample.row_x (SInt 3))
    = Raise IndexError.
Proof. by vm_compute. Qed.

Lemma ScalarReader_absent_field_default_witness :
  Sample.row_empty !! ScalarReader.row_key Sample.float_default_2 = None
  ∧ outcome ScalarReader.call Sample.float_default_2 Sample.row_empty
    = Ok {[ "y" := VScalar (SFloat Float.two64) ]}.
Proof.
  split; [reflexivity|].
  apply (proj1 ScalarReader_absent_field_default
           Sample.float_default_2 Sample.row_empty);
    reflexivity.
Defined.

Lemma ScalarReader_absent_field_no_default_witness :
  Sample.row_empty !! ScalarReader.row_key Sample.float32_plain = None
  ∧ outcome ScalarReader.call Sample.float32_plain Sample.row_empty
    = Ok {[ "y" := VScalar (SFloat32 Float.nan) ]}.
Proof.
  split; [reflexivity|].
  apply (proj1 ScalarReader_absent_field_no_default
           Sample.float32_plain Sample.row_empty);
    reflexivity.
Defined.

(** C4 as stated, under [dtype=int].  There is no default value and no
    one-hot class count and the field is absent; the call raises
    [TypeError] and returns no mapping. *)
Lemma ScalarReader_absent_field_int_raises :
  ScalarReader.default_value Sample.int_plain = SNone
  ∧ ScalarReader.one_hot_classes Sample.int_plain = None
  ∧ Sample.row_empty !! ScalarReader.row_key Sample.int_plain = None
  ∧ outcome ScalarReader.call Sample.int_plain Sample.row_empty
    = Raise TypeError
  ∧ outcome ScalarReader.call Sample.int_plain Sample.row_empty
    ≠ Ok {[ "y" := VScalar SNone ]}.
Proof. by vm_compute. Qed.

Lemma ScalarReader_negative_bypasses_one_hot_witness :
  Py.lt (SFloat32 Sample.minus_one32) 0 = Ok true
  ∧ outcome ScalarReader.call Sample.one_hot_float32 (Sample.row_x (SInt (-1)))
    = Ok {[ "y" := VScalar (SFloat32 Sample.minus_one32) ]}.
Proof.
  split; [reflexivity|].
  apply (proj1 ScalarReader_negative_bypasses_one_hot
           Sample.one_hot_float32 (Sample.row_x (SInt (-1)))
           (SFloat32 Sample.minus_one32) 5);
    reflexivity.
Defined.



Lemma TextReader_call_spec_witness :
  Sample.row_t !! TextReader.row_key Sample.upper_text = Some (SStr "hello")
  ∧ outcome TextReader.call Sample.upper_text Sample.row_t
    = Ok {[ "enc" := VScalar (SStr "HELLO") ]}
  ∧ Sample.row_empty !! TextReader.row_key Sample.upper_text = None
  ∧ outcome TextReader.call Sample.upper_text Sample.row_empty
    = Raise (KeyError "t").
Proof.
  split_and!; [reflexivity | | reflexivity | ].
  - apply (proj1 TextReader_call_spec
             Sample.upper_text Sample.row_t (SStr "hello")).
    reflexivity.
  - apply (proj1 (proj2 TextReader_call_spec)
             Sample.upper_text Sample.row_empty).
    reflexivity.
Defined.

Lemma ReaderCompose_first_error_propagates_witness :
  Reader.outcome (Image (ImageReader.init "path" "image" None None))
    Sample.row_path
  = Raise (CollaboratorError "No such file or directory")
  ∧ outcome ReaderCompose.call Sample.with_image Sample.row_path
    = Raise (CollaboratorError "No such file or directory").
Proof.
  split; [reflexivity|].
  apply (proj1 ReaderCompose_first_error_propagates
           Sample.with_image Sample.row_path
           [Scalar (ScalarReader.init "a" "out" None SNone None)]
           [Scalar (ScalarReader.init "b" "out" None SNone None)]
           (Image (ImageReader.init "path" "image" None None))
           [ {[ "out" := VScalar (SFloat32 Float.one32) ]} ]
           (CollaboratorError "No such file or directory")).
  - reflexivity.
  - repeat constructor.
  - reflexivity.
Defined.

Lemma ScalarReader_null_field_is_coerced_witness :
  Sample.row_x SNone !! ScalarReader.row_key Sample.int_default_2 = Some SNone
  ∧ outcome ScalarReader.call Sample.int_default_2 (Sample.row_x SNone)
    = Raise TypeError.
Proof.
  split; [reflexivity|].
  apply (proj1 ScalarReader_null_field_is_coerced
           Sample.int_default_2 (Sample.row_x SNone));
    reflexivity.
Defined.

(** C10 as stated, under the default [dtype].  A default value is
    configured and the record holds [None] under the source field; the
    call raises nothing and returns NaN. *)
Lemma ScalarReader_null_field_float32_returns :
  ScalarReader.default_value Sample.float32_default_2 = SFloat Float.two64
  ∧ Sample.row_x SNone !! ScalarReader.row_key Sample.float32_default_2
    = Some SNone
  ∧ outcome ScalarReader.call Sample.float32_default_2 (Sample.row_x SNone)
    = Ok {[ "y" := VScalar (SFloat32 Float.nan) ]}
  ∧ outcome ScalarReader.call Sample.float32_default_2 (Sample.row_x SNone)
    ≠ Raise TypeError.
Proof. by vm_compute. Qed.
End OnSamples.

(** * Further properties of the readers and the pipeline *)

(** ** What a reader returns *)

Section ReaderFacts.
Context `{Runtime}.

Lemma fmap_bind_Ok_inv {A B C} (m : result A) (f : A → B) (g : B → C) (c : C) :
  g <$> (a ← m; Ok (f a)) = Ok c → ∃ a, m = Ok a ∧ c = g (f a).
Proof. destruct m as [a|e]; [|done]. intros [= <-]. by exists a. Qed.

(** A dict returned by a reader holds one entry, under its output field. *)
Lemma returns_singleton (row : record) (fn : reader) (out : mapping) :
  returns row fn out → ∃ v, out = {[ reader_dict_key fn := v ]}.
Proof.
  unfold returns. destruct fn as [r|r|r|r]; cbn [reader_dict_key].
  - by rewrite Reader_outcome_Base.
  - rewrite Reader_outcome_Image, ImageReader_outcome.
    destruct (Py.dict_getitem _ _) as [x|e]; [|done]. cbn [mbind result_bind].
    destruct (read_image _ _ _) as [img|e]; [|done].
    intros [= <-]. by eexists.
  - rewrite Reader_outcome_Scalar, ScalarReader_outcome.
    destruct (ScalarReader.dtype r _) as [s|e]; [|done].
    cbn [mbind result_bind]. intros Hout.
    apply (fmap_bind_Ok_inv _ (λ v, {[ ScalarReader.dict_key r := v ]}) Some)
      in Hout as (v & _ & [= ->]).
    by eexists.
  - rewrite Reader_outcome_Text, TextReader_outcome.
    destruct (Py.dict_getitem _ _) as [x|e]; [|done]. cbn [mbind result_bind].
    destruct (TextReader.encode_fn r x) as [v|e]; [|done].
    intros [= <-]. by eexists.
Qed.

Lemma returns_returned (row : record) (fn : reader) (out : mapping) :
  returns row fn out → returned row fn = out.
Proof. unfold returns, returned. by intros ->. Qed.

Lemma returned_dom (row : record) (fn : reader) :
  dom (returned row fn) ⊆ {[ reader_dict_key fn ]}.
Proof.
  unfold returned. destruct (Reader.outcome fn row) as [[out|]|e] eqn:Hfn;
    try (rewrite dom_empty_L; set_solver).
  destruct (returns_singleton row fn out Hfn) as [v ->].
  by rewrite dom_singleton_L.
Qed.

Lemma Forall2_returns_returned (row : record) fns outs :
  Forall2 (returns row) fns outs → outs = returned row <$> fns.
Proof.
  induction 1 as [|fn out fns outs Hfn _ IH]; [done|].
  cbn [fmap list_fmap]. by rewrite (returns_returned _ _ _ Hfn), IH.
Qed.

Lemma Forall_returns_Forall2 (row : record) fns :
  Forall (λ fn, ∃ out, returns row fn out) fns →
  Forall2 (returns row) fns (returned row <$> fns).
Proof.
  induction 1 as [|fn fns [out Hfn] _ IH]; [constructor|].
  cbn [fmap list_fmap]. constructor; [|done].
  by rewrite (returns_returned _ _ _ Hfn).
Qed.

(** A reader reads its source field and nothing else of the record. *)
Lemma Reader_outcome_local (fn : reader) (row row' : record) :
  row !! reader_row_key fn = row' !! reader_row_key fn →
  Reader.outcome fn row = Reader.outcome fn row'.
Proof.
  destruct fn as [r|r|r|r]; cbn [reader_row_key]; intros Hkey.
  - by rewrite !Reader_outcome_Base.
  - rewrite !Reader_outcome_Image, !ImageReader_outcome.
    unfold Py.dict_getitem. by rewrite Hkey.
  - rewrite !Reader_outcome_Scalar, !ScalarReader_outcome.
    unfold Py.dict_get. by rewrite Hkey.
  - rewrite !Reader_outcome_Text, !TextReader_outcome.
    unfold Py.dict_getitem. by rewrite Hkey.
Qed.
End ReaderFacts.

(** ** Merged dicts *)

Lemma foldl_dict_merge_acc (acc : mapping) (outs : list mapping) :
  foldl Py.dict_merge acc outs = Py.dict_merge acc (foldl Py.dict_merge ∅ outs).
Proof.
  revert acc. induction outs as [|out outs IH]; intros acc; cbn [foldl].
  - unfold Py.dict_merge. by rewrite (left_id_L ∅ (∪)).
  - rewrite IH, (IH (Py.dict_merge ∅ out)). unfold Py.dict_merge.
    by rewrite (right_id_L ∅ (∪)), (assoc_L (∪)).
Qed.

Lemma dom_merged (acc : mapping) (outs : list mapping) :
  dom (foldl Py.dict_merge acc outs) = dom acc ∪ ⋃ (dom <$> outs).
Proof.
  revert acc. induction outs as [|out outs IH]; intros acc;
    cbn [foldl fmap list_fmap].
  - rewrite union_list_nil. set_solver.
  - rewrite IH, union_list_cons. unfold Py.dict_merge. rewrite dom_union_L.
    set_solver.
Qed.

(** Dicts with different single keys merge to the same mapping in either
    order. *)
Lemma dict_merge_swap (acc a b : mapping) :
  dom a ## dom b →
  Py.dict_merge (Py.dict_merge acc a) b = Py.dict_merge (Py.dict_merge acc b) a.
Proof.
  intros Hdisj. unfold Py.dict_merge.
  rewrite !(assoc_L (∪)). f_equal. apply map_union_comm.
  by apply map_disjoint_dom.
Qed.

(** ** The loops, piecewise *)

Section PipelineFacts.
Context `{Runtime}.
Implicit Types (c : ReaderCompose.t) (row : record) (acc : mapping).

(** Neither loop looks at the pipeline object. *)
Lemma run_readers_self fns acc c c' row :
  outcome (ReaderCompose.run_readers fns acc) c row
  = outcome (ReaderCompose.run_readers fns acc) c' row.
Proof.
  revert acc. induction fns as [|fn fns IH]; intros acc; [done|].
  rewrite !run_readers_cons.
  destruct (Reader.outcome fn row) as [out|e]; [|done].
  cbn [mbind result_bind].
  destruct (Py.dict_merge_ret acc out) as [acc'|e]; [|done]. apply IH.
Qed.

(** The second loop looks at neither the pipeline object nor the record. *)
Lemma run_mixins_self fns acc c c' row row' :
  outcome (ReaderCompose.run_mixins fns acc) c row
  = outcome (ReaderCompose.run_mixins fns acc) c' row'.
Proof.
  revert acc. induction fns as [|fn fns IH]; intros acc; [done|].
  rewrite !run_mixins_cons. destruct (fn acc) as [out|e]; [|done]. apply IH.
Qed.

Lemma run_readers_local fns acc c row row' :
  (∀ fn, fn ∈ fns → row !! reader_row_key fn = row' !! reader_row_key fn) →
  outcome (ReaderCompose.run_readers fns acc) c row
  = outcome (ReaderCompose.run_readers fns acc) c row'.
Proof.
  revert acc. induction fns as [|fn fns IH]; intros acc Hkeys; [done|].
  rewrite !run_readers_cons.
  rewrite (Reader_outcome_local fn row row') by (apply Hkeys; left).
  destruct (Reader.outcome fn row') as [out|e]; [|done].
  cbn [mbind result_bind].
  destruct (Py.dict_merge_ret acc out) as [acc'|e]; [|done].
  apply IH. intros fn' Hfn'. apply Hkeys. by right.
Qed.

Lemma run_readers_app fns1 fns2 acc c row :
  outcome (ReaderCompose.run_readers (fns1 ++ fns2) acc) c row =
    m ← outcome (ReaderCompose.run_readers fns1 acc) c row;
    outcome (ReaderCompose.run_readers fns2 m) c row.
Proof.
  revert acc. induction fns1 as [|fn fns1 IH]; intros acc; [done|].
  cbn [app]. rewrite !run_readers_cons.
  destruct (Reader.outcome fn row) as [out|e]; [|done].
  cbn [mbind result_bind].
  destruct (Py.dict_merge_ret acc out) as [acc'|e]; [|done]. apply IH.
Qed.

Lemma run_mixins_app fns1 fns2 acc c row :
  outcome (ReaderCompose.run_mixins (fns1 ++ fns2) acc) c row =
    m ← outcome (ReaderCompose.run_mixins fns1 acc) c row;
    outcome (ReaderCompose.run_mixins fns2 m) c row.
Proof.
  revert acc. induction fns1 as [|fn fns1 IH]; intros acc; [done|].
  cbn [app]. rewrite !run_mixins_cons.
  destruct (fn acc) as [out|e]; [|done]. apply IH.
Qed.

(** The first loop from [acc] is the first loop from the empty dict,
    merged over [acc]. *)
Lemma run_readers_acc fns acc c row :
  outcome (ReaderCompose.run_readers fns acc) c row =
    m ← outcome (ReaderCompose.run_readers fns ∅) c row;
    Ok (Py.dict_merge acc m).
Proof.
  destruct (outcome (ReaderCompose.run_readers fns ∅) c row) as [m|e] eqn:Hrun.
  - apply run_readers_ok_inv in Hrun as (outs & Hall & ->).
    rewrite (run_readers_ok _ outs) by done. cbn [mbind result_bind].
    by rewrite foldl_dict_merge_acc.
  - cbn [mbind result_bind]. revert acc Hrun.
    generalize (∅ : mapping).
    induction fns as [|fn fns IH]; intros acc0 acc; [done|].
    rewrite !run_readers_cons.
    destruct (Reader.outcome fn row) as [[out|]|e']; try done.
    cbn [mbind result_bind Py.dict_merge_ret]. apply IH.
Qed.

(** Readers that write different fields can be run in any order. *)
Lemma merged_perm row fns fns' acc :
  fns ≡ₚ fns' →
  NoDup (reader_dict_key <$> fns) →
  foldl Py.dict_merge acc (returned row <$> fns)
  = foldl Py.dict_merge acc (returned row <$> fns').
Proof.
  intros Hperm. revert acc.
  induction Hperm as [|fn fns fns' _ IH|fn1 fn2 fns|fns fns' fns'' Hp1 IH1 Hp2 IH2];
    intros acc Hnodup.
  - done.
  - cbn [fmap list_fmap foldl] in *. apply NoDup_cons in Hnodup as [_ Hnodup].
    by apply IH.
  - cbn [fmap list_fmap foldl] in *.
    apply NoDup_cons in Hnodup as [Hne _].
    rewrite dict_merge_swap; [done|].
    pose proof (returned_dom row fn1). pose proof (returned_dom row fn2).
    set_solver.
  - rewrite IH1 by done. apply IH2. by rewrite <- Hp1.
Qed.
End PipelineFacts.

(** ** One-hot vectors *)

Lemma one_hot_vector_inj (n k k' : nat) :
  k < n → one_hot_vector n k = one_hot_vector n k' → k = k'.
Proof.
  intros Hk Heq. apply (f_equal (.!! k)) in Heq.
  rewrite !one_hot_vector_lookup in Heq by done.
  rewrite decide_True in Heq by done.
  by destruct (decide (k = k')).
Qed.

Lemma ScalarReader_one_hot_outcome (r : ScalarReader.t) (row : record)
    (x : scalar) (n k : Z) :
  ScalarReader.one_hot_classes r = Some n →
  row !! ScalarReader.row_key r = Some x →
  ScalarReader.dtype r x = Ok (SInt k) →
  (0 ≤ k < n)%Z →
  outcome ScalarReader.call r row
  = Ok {[ ScalarReader.dict_key r
          := VArray (one_hot_vector (Z.to_nat n) (Z.to_nat k)) ]}.
Proof.
  intros Hn Hx Hdtype Hk.
  rewrite ScalarReader_outcome. unfold Py.dict_get. rewrite Hx, Hdtype, Hn.
  cbn [mbind result_bind Py.is_not_none Py.ge].
  replace (0 <=? k)%Z with true by lia.
  pose proof (np_one_hot_in_range n k Hk) as Hvec.
  destruct (Py.np_zeros n) as [a|e]; cbn [mbind result_bind] in *; [|done].
  by rewrite Hvec.
Qed.

(** * Further theorems *)

Section Further.
Context `{Runtime}.
Local Open Scope Z_scope.

(** X1.  An image reader looks its source field up with [row[key]]: on a
    record without the field it raises [KeyError], whatever the decoder
    would do.  With the field, the decoder is called on the text of the
    value with the reader's [datapath] and [grayscale], and the buffer
    it returns is the one entry of the output, under the output field. *)
Theorem ImageReader_call_spec :
  (∀ (r : ImageReader.t) (row : record) (x : scalar) (img : image),
      row !! ImageReader.row_key r = Some x →
      read_image (str x) (ImageReader.datapath r) (ImageReader.grayscale r)
      = Ok img →
      outcome ImageReader.call r row
      = Ok {[ ImageReader.dict_key r := VImage img ]})
  ∧ (∀ (r : ImageReader.t) (row : record),
      row !! ImageReader.row_key r = None →
      outcome ImageReader.call r row
      = Raise (KeyError (ImageReader.row_key r))).
Proof.
  split.
  - intros r row x img Hx Hread. rewrite ImageReader_outcome.
    unfold Py.dict_getitem. rewrite Hx. cbn [mbind result_bind].
    by rewrite Hread.
  - intros r row Hx. rewrite ImageReader_outcome.
    unfold Py.dict_getitem. by rewrite Hx.
Qed.

(** X2.  A [BaseReader] instance among the readers makes the pipeline
    raise [TypeError] once the readers before it have returned: its call
    returns [None], which cannot be merged into the result. *)
Theorem ReaderCompose_base_reader_raises
    (c : ReaderCompose.t) (row : record) (pre post : list reader)
    (r : BaseReader.t) (outs : list mapping) :
  ReaderCompose.readers c = pre ++ Base r :: post →
  Forall2 (returns row) pre outs →
  outcome ReaderCompose.call c row = Raise TypeError.
Proof.
  intros Hc Hpre. rewrite ReaderCompose_outcome, Hc, run_readers_app.
  rewrite (run_readers_ok _ outs) by done. cbn [mbind result_bind].
  by rewrite run_readers_cons, Reader_outcome_Base.
Qed.

(** X3.  A pipeline call leaves the record and the pipeline object, with
    its lists of readers and mixins, as it found them, whether it
    returns or raises. *)
Theorem ReaderCompose_preserves_frame (c : ReaderCompose.t) (row : record) :
  (run ReaderCompose.call c row).1 = Frame c row.
Proof. apply ReaderCompose_call_preserves. Qed.

(** X4.  A dict returned by a reader of any class has exactly one key,
    the reader's output field. *)
Theorem reader_output_single_key
    (fn : reader) (row : record) (out : mapping) :
  Reader.outcome fn row = Ok (Some out) →
  dom out = {[ reader_dict_key fn ]} ∧ size out = 1%nat.
Proof.
  intros Hout. destruct (returns_singleton row fn out Hout) as [v ->].
  split; [apply dom_singleton_L | apply map_size_singleton].
Qed.

(** X5.  The result of a pipeline call has a key for the output field of
    every reader; without mixins these are all its keys. *)
Theorem ReaderCompose_output_keys
    (c : ReaderCompose.t) (row : record) (result : mapping) :
  outcome ReaderCompose.call c row = Ok result →
  list_to_set (reader_dict_key <$> ReaderCompose.readers c) ⊆ dom result
  ∧ (ReaderCompose.mixins c = [] →
     dom result = list_to_set (reader_dict_key <$> ReaderCompose.readers c)).
Proof.
  intros Hcall.
  apply ReaderCompose_ok_inv in Hcall as (outs & mouts & Hall & Hmix & ->).
  assert (⋃ (dom <$> outs)
          =@{gset string} list_to_set (reader_dict_key <$> ReaderCompose.readers c))
    as Hkeys.
  { clear Hmix. induction Hall as [|fn out fns outs Hfn _ IH]; [done|].
    cbn [fmap list_fmap]. rewrite union_list_cons, list_to_set_cons, IH.
    destruct (returns_singleton row fn out Hfn) as [v ->].
    by rewrite dom_singleton_L. }
  rewrite dom_merged, dom_empty_L, fmap_app, union_list_app_L, Hkeys. split.
  - set_solver.
  - intros Hnone. rewrite Hnone in Hmix. inversion Hmix; subst.
    cbn [fmap list_fmap]. rewrite union_list_nil. set_solver.
Qed.

(** X6.  A reader reads its source field and nothing else: on two records
    that agree on that field its call has the same outcome.  So has a
    pipeline call on two records that agree on the source fields of its
    readers. *)
Theorem readers_read_own_field :
  (∀ (fn : reader) (row row' : record),
      row !! reader_row_key fn = row' !! reader_row_key fn →
      Reader.outcome fn row = Reader.outcome fn row')
  ∧ (∀ (c : ReaderCompose.t) (row row' : record),
      (∀ fn, fn ∈ ReaderCompose.readers c →
             row !! reader_row_key fn = row' !! reader_row_key fn) →
      outcome ReaderCompose.call c row = outcome ReaderCompose.call c row').
Proof.
  split; [apply Reader_outcome_local|].
  intros c row row' Hkeys. rewrite !ReaderCompose_outcome.
  rewrite (run_readers_local _ _ _ row row') by done.
  destruct (outcome (ReaderCompose.run_readers _ _) c row') as [m|e]; [|done].
  cbn [mbind result_bind]. apply run_mixins_self.
Qed.

(** X7.  Without mixins, when every reader returns and no two readers
    write the same output field, the order of the readers does not
    matter to the entries of the result: a pipeline with the readers in
    another order returns a mapping with the same keys and values (an
    equal dict, whose keys were inserted in another order). *)
Theorem ReaderCompose_order_irrelevant (c c' : ReaderCompose.t) (row : record) :
  ReaderCompose.readers c ≡ₚ ReaderCompose.readers c' →
  ReaderCompose.mixins c = [] →
  ReaderCompose.mixins c' = [] →
  NoDup (reader_dict_key <$> ReaderCompose.readers c) →
  Forall (λ fn, ∃ out, returns row fn out) (ReaderCompose.readers c) →
  outcome ReaderCompose.call c' row = outcome ReaderCompose.call c row.
Proof.
  intros Hperm Hmixins Hmixins' Hnodup Hall.
  assert (Forall (λ fn, ∃ out, returns row fn out) (ReaderCompose.readers c'))
    as Hall' by by rewrite <- Hperm.
  apply Forall_returns_Forall2 in Hall, Hall'.
  rewrite !ReaderCompose_outcome.
  rewrite (run_readers_ok _ _ _ _ _ Hall), (run_readers_ok _ _ _ _ _ Hall').
  cbn [mbind result_bind].
  by rewrite <- (merged_perm row _ _ ∅ Hperm Hnodup), Hmixins, Hmixins'.
Qed.

(** X8.  Pipelines compose.  Without mixins, the pipeline of two lists of
    readers put end to end does what the pipeline of the first list and
    then the pipeline of the second do, their results merged with the
    second over the first; the first failure of either is the failure of
    the whole.  Mixins added at the end work on the result of the
    pipeline without them. *)
Theorem ReaderCompose_concat :
  (∀ (rs1 rs2 : list reader) (row : record),
      outcome ReaderCompose.call (ReaderCompose.mk (rs1 ++ rs2) []) row =
        m1 ← outcome ReaderCompose.call (ReaderCompose.mk rs1 []) row;
        m2 ← outcome ReaderCompose.call (ReaderCompose.mk rs2 []) row;
        Ok (Py.dict_merge m1 m2))
  ∧ (∀ (rs : list reader) (ms1 ms2 : list mixin) (row : record),
      outcome ReaderCompose.call (ReaderCompose.mk rs (ms1 ++ ms2)) row =
        m ← outcome ReaderCompose.call (ReaderCompose.mk rs ms1) row;
        outcome (ReaderCompose.run_mixins ms2 m) (ReaderCompose.mk rs ms2) row).
Proof.
  split.
  - intros rs1 rs2 row. rewrite !ReaderCompose_outcome.
    cbn [ReaderCompose.readers ReaderCompose.mixins].
    rewrite run_readers_app.
    rewrite (run_readers_self rs1 ∅ _ (ReaderCompose.mk rs1 [])).
    destruct (outcome (ReaderCompose.run_readers rs1 ∅) _ row) as [m1|e];
      [|done].
    cbn [mbind result_bind]. rewrite run_readers_acc.
    rewrite (run_readers_self rs2 ∅ _ (ReaderCompose.mk rs2 [])).
    by destruct (outcome (ReaderCompose.run_readers rs2 ∅) _ row).
  - intros rs ms1 ms2 row. rewrite !ReaderCompose_outcome.
    cbn [ReaderCompose.readers ReaderCompose.mixins].
    rewrite (run_readers_self rs ∅ _ (ReaderCompose.mk rs ms1)).
    destruct (outcome (ReaderCompose.run_readers rs ∅) _ row) as [m|e];
      [|done].
    cbn [mbind result_bind]. rewrite run_mixins_app.
    rewrite (run_mixins_self ms1 m _ (ReaderCompose.mk rs ms1) row row).
    destruct (outcome (ReaderCompose.run_mixins ms1 m) _ row) as [m'|e];
      [|done].
    cbn [mbind result_bind]. apply run_mixins_self.
Qed.


(** X10.  One-hot encoding is bypassed when the coerced scalar is [None]
    or a NaN: whatever the class count, the scalar itself is the output
    and nothing is raised. *)
Theorem ScalarReader_none_nan_bypass
    (r : ScalarReader.t) (row : record) (s : scalar) :
  ScalarReader.dtype r
    (Py.dict_get row (ScalarReader.row_key r) (ScalarReader.default_value r))
  = Ok s →
  s = SNone ∨ s = SFloat Float.nan ∨ s = SFloat32 Float.nan →
  outcome ScalarReader.call r row
  = Ok {[ ScalarReader.dict_key r := VScalar s ]}.
Proof.
  intros Hs Hcase. rewrite ScalarReader_outcome, Hs. cbn [mbind result_bind].
  destruct (ScalarReader.one_hot_classes r) as [n|]; [|done].
  by destruct Hcase as [-> | [-> | ->]].
Qed.

(** X11.  When the record has the source field, the default value plays
    no part, whatever is stored under the field: the stored value alone
    is coerced, and a reader with any other default has the same
    outcome. *)
Theorem ScalarReader_present_ignores_default
    (r : ScalarReader.t) (row : record) (x default_value : scalar) :
  row !! ScalarReader.row_key r = Some x →
  outcome ScalarReader.call r row
  = outcome ScalarReader.call
      (ScalarReader.mk (ScalarReader.row_key r) (ScalarReader.dict_key r)
         (ScalarReader.dtype r) default_value (ScalarReader.one_hot_classes r))
      row
  ∧ (∀ e, ScalarReader.dtype r x = Raise e →
          outcome ScalarReader.call r row = Raise e)
  ∧ (∀ s, ScalarReader.one_hot_classes r = None →
          ScalarReader.dtype r x = Ok s →
          outcome ScalarReader.call r row
          = Ok {[ ScalarReader.dict_key r := VScalar s ]}).
Proof.
  intros Hx. rewrite !ScalarReader_outcome. unfold Py.dict_get.
  cbn [ScalarReader.row_key ScalarReader.dtype ScalarReader.one_hot_classes
       ScalarReader.dict_key ScalarReader.default_value].
  rewrite Hx. split_and!.
  - done.
  - by intros e ->.
  - by intros s -> ->.
Qed.

(** X12.  One-hot encoding keeps labels apart: two records whose fields
    coerce to different integers within the class count get different
    outputs from the same reader. *)
Theorem ScalarReader_one_hot_distinct
    (r : ScalarReader.t) (row row' : record) (x x' : scalar) (n k k' : Z) :
  ScalarReader.one_hot_classes r = Some n →
  row !! ScalarReader.row_key r = Some x →
  row' !! ScalarReader.row_key r = Some x' →
  ScalarReader.dtype r x = Ok (SInt k) →
  ScalarReader.dtype r x' = Ok (SInt k') →
  0 ≤ k < n → 0 ≤ k' < n → k ≠ k' →
  outcome ScalarReader.call r row ≠ outcome ScalarReader.call r row'.
Proof.
  intros Hn Hx Hx' Hd Hd' Hk Hk' Hne.
  rewrite (ScalarReader_one_hot_outcome r row x n k) by done.
  rewrite (ScalarReader_one_hot_outcome r row' x' n k') by done.
  intros Heq.
  apply (f_equal (λ out : result mapping,
           match out with
           | Ok m => m !! ScalarReader.dict_key r
           | Raise _ => None
           end)) in Heq.
  rewrite !lookup_singleton_eq in Heq. injection Heq as Heq.
  apply one_hot_vector_inj in Heq; lia.
Qed.
End Further.

(** * The further theorems on given inputs *)

Section FurtherOnSamples.
Local Open Scope Z_scope.
Local Existing Instance Sample.host.

Lemma ImageReader_call_spec_witness :
  outcome (ImageReader.call (H := Inputs.album)) Inputs.gray_image Inputs.row_cat
  = Ok {[ "image" := VImage (Buffer [1%nat; 1%nat] [7%N]) ]}
  ∧ outcome (ImageReader.call (H := Inputs.album)) Inputs.gray_image Sample.row_empty
    = Raise (KeyError "path").
Proof.
  split.
  - apply (proj1 (ImageReader_call_spec (H := Inputs.album))
             Inputs.gray_image Inputs.row_cat (SStr "cat.png"));
      reflexivity.
  - apply (proj2 (ImageReader_call_spec (H := Inputs.album))
             Inputs.gray_image Sample.row_empty).
    reflexivity.
Defined.

Lemma ReaderCompose_base_reader_raises_witness :
  outcome ReaderCompose.call
    Inputs.with_base Sample.row_ab
  = Raise TypeError.
Proof.
  apply (ReaderCompose_base_reader_raises
           Inputs.with_base Sample.row_ab
           [Inputs.reader_a] [] (BaseReader.init "b" "out2")
           [ {[ "out1" := VScalar (SFloat32 Float.one32) ]} ]).
  - reflexivity.
  - repeat constructor.
Defined.

Lemma reader_output_single_key_witness :
  Reader.outcome Inputs.reader_a Sample.row_ab
  = Ok (Some {[ "out1" := VScalar (SFloat32 Float.one32) ]})
  ∧ dom ({[ "out1" := VScalar (SFloat32 Float.one32) ]} : mapping)
    = {[ "out1" ]}
  ∧ size ({[ "out1" := VScalar (SFloat32 Float.one32) ]} : mapping) = 1%nat.
Proof.
  split; [reflexivity|].
  apply (reader_output_single_key
           Inputs.reader_a Sample.row_ab).
  reflexivity.
Defined.

Lemma ReaderCompose_output_keys_witness :
  outcome ReaderCompose.call
    Inputs.a_then_b Sample.row_ab
  = Ok {[ "out1" := VScalar (SFloat32 Float.one32);
          "out2" := VScalar (SFloat32 Sample.two32) ]}
  ∧ list_to_set (reader_dict_key <$>
       ReaderCompose.readers Inputs.a_then_b)
    ⊆ dom ({[ "out1" := VScalar (SFloat32 Float.one32);
              "out2" := VScalar (SFloat32 Sample.two32) ]} : mapping).
Proof.
  split; [reflexivity|].
  apply (ReaderCompose_output_keys
           Inputs.a_then_b Sample.row_ab).
  reflexivity.
Defined.

Lemma readers_read_own_field_witness :
  Sample.row_ab !! "a" = Inputs.row_abc !! "a"
  ∧ Reader.outcome Inputs.reader_a Sample.row_ab
    = Reader.outcome Inputs.reader_a Inputs.row_abc.
Proof.
  split; [reflexivity|].
  apply (proj1 (readers_read_own_field)
           Inputs.reader_a Sample.row_ab Inputs.row_abc).
  reflexivity.
Defined.

Lemma ReaderCompose_order_irrelevant_witness :
  outcome ReaderCompose.call
    Inputs.b_then_a Sample.row_ab
  = outcome ReaderCompose.call
      Inputs.a_then_b Sample.row_ab.
Proof.
  apply (ReaderCompose_order_irrelevant
           Inputs.a_then_b Inputs.b_then_a Sample.row_ab).
  - apply perm_swap.
  - reflexivity.
  - reflexivity.
  - apply (bool_decide_unpack _). reflexivity.
  - repeat constructor; eexists; reflexivity.
Defined.


Lemma ScalarReader_none_nan_bypass_witness :
  outcome ScalarReader.call Sample.one_hot_float32
    Sample.row_empty
  = Ok {[ "y" := VScalar (SFloat32 Float.nan) ]}.
Proof.
  apply (ScalarReader_none_nan_bypass Sample.one_hot_float32
           Sample.row_empty (SFloat32 Float.nan)).
  - reflexivity.
  - right; right; reflexivity.
Defined.

Lemma ScalarReader_present_ignores_default_witness :
  Sample.row_x (SInt 3) !! "x" = Some (SInt 3)
  ∧ outcome ScalarReader.call Sample.int_default_2
      (Sample.row_x (SInt 3))
    = outcome ScalarReader.call Sample.int_plain
        (Sample.row_x (SInt 3)).
Proof.
  split; [reflexivity|].
  apply (proj1 (ScalarReader_present_ignores_default
                  Sample.int_default_2 (Sample.row_x (SInt 3)) (SInt 3) SNone
                  eq_refl)).
Defined.

Lemma ScalarReader_one_hot_distinct_witness :
  outcome ScalarReader.call Sample.one_hot_int
    (Sample.row_x (SInt 3))
  ≠ outcome ScalarReader.call Sample.one_hot_int
      (Sample.row_x (SInt 1)).
Proof.
  apply (ScalarReader_one_hot_distinct Sample.one_hot_int
           (Sample.row_x (SInt 3)) (Sample.row_x (SInt 1))
           (SInt 3) (SInt 1) 5 3 1);
    first [reflexivity | lia].
Defined.
End FurtherOnSamples.
